(** * generate_esp.py: a shallow embedding of the ESP generator script

    The script reads an XYZ geometry file, hands a molecule specification
    to the Psi4 engine, and renames the cube file the engine leaves behind.

    Modelling choices, fixed once for the whole development:
    - text is [string]; a character stands for a code point below 256;
    - a file is known by its directory and its name in it; the file
      system maps such identities to contents and says how the directory
      part of a path resolves (working directory, dot components, links
      to directories), so that different spellings can name one file;
    - files are regular, readable text files with one name each (no
      hard or symbolic links to files, names compared exactly);
    - [os.rename] has its POSIX meaning on such files; the operating
      system may refuse it (another device, permissions), which raises
      [OSError];
    - Psi4 is an interface (record [psi4_engine]): the script is verified
      against every engine;
    - an uncaught Python exception ends the run with outcome [Raised];
      the interpreter, not the script, turns that into a traceback on
      standard error and process status 1. *)

From Stdlib Require Import ZArith NArith Ascii String Lia.
From stdpp Require Import base option list strings gmap.

Local Open Scope Z_scope.

(** ** Text primitives of the Python runtime *)

Module PyStr.

Definition LF : ascii := "010"%char.
Definition CR : ascii := "013"%char.

(** [str.isspace] on one character (code points below 256). *)
Definition isspace (c : ascii) : bool :=
  let n := N_of_ascii c in
  ((9 <=? n) && (n <=? 13) || (28 <=? n) && (n <=? 32)
   || (n =? 133) || (n =? 160))%N.

Definition isdigit (c : ascii) : bool :=
  let n := N_of_ascii c in ((48 <=? n) && (n <=? 57))%N.

Definition digit_value (c : ascii) : Z := Z.of_N (N_of_ascii c) - 48.

Definition is_empty (s : string) : bool :=
  match s with EmptyString => true | String _ _ => false end.

(** [str.lstrip()], [str.rstrip()], [str.strip()] without argument. *)
Fixpoint lstrip (s : string) : string :=
  match s with
  | EmptyString => EmptyString
  | String c r => if isspace c then lstrip r else s
  end.

Fixpoint rstrip (s : string) : string :=
  match s with
  | EmptyString => EmptyString
  | String c r =>
      let r' := rstrip r in
      if isspace c && is_empty r' then EmptyString else String c r'
  end.

Definition strip (s : string) : string := rstrip (lstrip s).

(** [sep.join(parts)]. *)
Fixpoint join (sep : string) (parts : list string) : string :=
  match parts with
  | [] => ""
  | [p] => p
  | p :: ps => p +:+ sep +:+ join sep ps
  end.

(** The digit part of a decimal integer literal as [int()] accepts it:
    digits, with single underscores allowed between two digits. *)
Fixpoint int_digits (acc : Z) (after_digit : bool) (s : string) : option Z :=
  match s with
  | EmptyString => if after_digit then Some acc else None
  | String c r =>
      if isdigit c then int_digits (10 * acc + digit_value c) true r
      else if Ascii.eqb c "_"%char
           then (if after_digit then int_digits acc false r else None)
           else None
  end.

(** [int(s)] for a string argument, base 10; [None] stands for
    [ValueError]. *)
Definition int (s : string) : option Z :=
  match strip s with
  | EmptyString => None
  | String c r =>
      if Ascii.eqb c "-"%char then Z.opp <$> int_digits 0 false r
      else if Ascii.eqb c "+"%char then int_digits 0 false r
      else int_digits 0 false (String c r)
  end.

(** Text-mode reading with universal newlines: CR LF and a lone CR are
    read as LF. *)
Fixpoint universal_newlines (s : string) : string :=
  match s with
  | EmptyString => EmptyString
  | String c r =>
      if Ascii.eqb c CR then
        match r with
        | String d r' =>
            if Ascii.eqb d LF then String LF (universal_newlines r')
            else String LF (universal_newlines r)
        | EmptyString => String LF EmptyString
        end
      else String c (universal_newlines r)
  end.

(** Splitting after every LF, the terminator kept with its line. *)
Fixpoint split_keepends (s : string) : list string :=
  match s with
  | EmptyString => []
  | String c r =>
      if Ascii.eqb c LF then String LF EmptyString :: split_keepends r
      else match split_keepends r with
           | [] => [String c EmptyString]
           | l :: ls => String c l :: ls
           end
  end.

(** [f.readlines()] on a file opened with mode ['r']. *)
Definition readlines (content : string) : list string :=
  split_keepends (universal_newlines content).

End PyStr.

Definition nl : string := String PyStr.LF EmptyString.

(** ** Paths: [os.path.splitext] on POSIX *)

Module PyPath.

(** [s.rfind(c)] for a single character: the last index, if any. *)
Fixpoint rfind (c : ascii) (s : string) : option nat :=
  match s with
  | EmptyString => None
  | String d r =>
      match rfind c r with
      | Some i => Some (S i)
      | None => if Ascii.eqb d c then Some 0%nat else None
      end
  end.

(** Python's [rfind] answers -1 when the character is absent. *)
Definition rfind_index (c : ascii) (s : string) : Z :=
  match rfind c s with Some i => Z.of_nat i | None => -1 end.

Fixpoint take (n : nat) (s : string) : string :=
  match n, s with
  | S k, String c r => String c (take k r)
  | _, _ => EmptyString
  end.

Fixpoint drop (n : nat) (s : string) : string :=
  match n, s with
  | S k, String _ r => drop k r
  | _, _ => s
  end.

(** The loop of [genericpath._splitext] that skips leading dots of the
    file name: [true] when some character in [from, from + count) is
    not a dot. *)
Fixpoint has_non_dot (s : string) (from count : nat) : bool :=
  match count with
  | O => false
  | S k =>
      match String.get from s with
      | Some c => if Ascii.eqb c "."%char then has_non_dot s (S from) k
                  else true
      | None => true
      end
  end.

Definition splitext (p : string) : string * string :=
  let sepIndex := rfind_index "/"%char p in
  let dotIndex := rfind_index "."%char p in
  if (sepIndex <? dotIndex)
  then
    let filenameIndex := sepIndex + 1 in
    if has_non_dot p (Z.to_nat filenameIndex)
                     (Z.to_nat (dotIndex - filenameIndex))
    then (take (Z.to_nat dotIndex) p, drop (Z.to_nat dotIndex) p)
    else (p, EmptyString)
  else (p, EmptyString).

(** [os.path.basename]: what follows the last separator. *)
Definition basename (p : string) : string :=
  drop (Z.to_nat (rfind_index "/"%char p + 1)) p.

(** The head of [os.path.split]: everything up to and including the
    last separator; empty for a path without directory part. *)
Definition dir_part (p : string) : string :=
  take (Z.to_nat (rfind_index "/"%char p + 1)) p.

End PyPath.

(** ** The world the script runs in *)

(** The file system: contents by identity (directory, name), the
    resolution of directory parts, and the renames the operating system
    refuses, with the message of the error. *)
Record files := Files {
  entries : gmap (string * string) string;
  resolve_dir : string -> string;
  rename_error : string * string -> string * string -> option string
}.

(** The identity a path names. *)
Definition resolve (f : files) (path : string) : string * string :=
  (resolve_dir f (PyPath.dir_part path), PyPath.basename path).

Definition same_file (f : files) (p q : string) : Prop :=
  resolve f p = resolve f q.

(** The path names a file of the working directory of the process. *)
Definition in_working_dir (f : files) (path : string) : Prop :=
  resolve_dir f (PyPath.dir_part path) = resolve_dir f "".

Definition rename_refusal (f : files) (src dst : string) : option string :=
  rename_error f (resolve f src) (resolve f dst).

(** Reading, writing and removing by path. *)
Global Instance files_lookup : Lookup string string files :=
  fun path f => entries f !! resolve f path.

Global Instance files_insert : Insert string string files :=
  fun path content f =>
    Files (<[resolve f path := content]> (entries f))
          (resolve_dir f) (rename_error f).

Global Instance files_delete : Delete string files :=
  fun path f =>
    Files (delete (resolve f path) (entries f))
          (resolve_dir f) (rename_error f).

(** No file, directory parts taken as spelled, no rename refused. *)
Global Instance files_empty : Empty files :=
  Files ∅ (fun dir => dir) (fun _ _ => None).

Global Instance files_singleton : SingletonM string string files :=
  fun path content => <[path := content]> ∅.

Global Arguments files_lookup : simpl never.
Global Arguments files_insert : simpl never.
Global Arguments files_delete : simpl never.

Inductive read_site :=
  | ArgvOne                  (* sys.argv[1] *)
  | CountLine                (* lines[0] *)
  | CommentLine              (* lines[1] *)
  | AtomLine (i : nat).      (* lines[i] inside the loop *)

Inductive exn :=
  | IndexError (site : read_site)
  | ValueError (text : string)
  | FileNotFoundError (path : string)
  | OSError (msg : string)
  | EngineError (msg : string).

(** Values of the option mapping handed to [psi4.set_options]. *)
Inductive option_value :=
  | OptStr (s : string)
  | OptStrs (l : list string)
  | OptFloats (literals : list string).

Inductive psi4_call :=
  | CallGeometry (spec : string)
  | CallSetOptions (opts : list (string * option_value))
  | CallEnergy (method : string)
  | CallCubeprop.

(** What the script does to its environment, in program order. *)
Inductive event :=
  | EvExists (path : string)
  | EvImport
  | EvOpenRead (path : string)
  | EvEngine (c : psi4_call)
  | EvRename (src dst : string)            (* a rename carried out *)
  | EvRenameFailed (src dst : string).     (* a rename that raised *)

Inductive reply (S A : Type) :=
  | Fails (msg : string)
  | Returns (a : A) (s : S) (f : files).
Arguments Fails {S A} msg.
Arguments Returns {S A} a s f.

(** The Psi4 interface as the script uses it. An engine has a state of
    its own (the active molecule, the options, the wavefunction) and may
    read and write files. *)
Record psi4_engine := {
  psi4_state : Type;
  psi4_float : Type;
  format_6f : psi4_float -> string;
  psi4_geometry : string -> psi4_state -> files -> reply psi4_state unit;
  psi4_set_options :
    list (string * option_value) -> psi4_state -> files -> reply psi4_state unit;
  psi4_energy : string -> psi4_state -> files -> reply psi4_state psi4_float;
  psi4_cubeprop : psi4_state -> files -> reply psi4_state unit
}.

Inductive result (A : Type) :=
  | Val (a : A)
  | Exit (status : Z)
  | Raised (e : exn).
Arguments Val {A} a.
Arguments Exit {A} status.
Arguments Raised {A} e.

(** Status of the process as the interpreter reports it. *)
Definition process_status {A} (r : result A) : Z :=
  match r with
  | Val _ => 0
  | Exit status => status
  | Raised _ => 1
  end.

(** ** The XYZ parsing block (source lines 35 to 43), a pure function of
       the list of lines *)

Module Xyz.

(** [lines[i]] for a non-negative index. *)
Definition index (lines : list string) (i : nat) (site : read_site)
  : result string :=
  match lines !! i with
  | Some l => Val l
  | None => Raised (IndexError site)
  end.

(** [n_atoms = int(lines[0].strip())]. *)
Definition read_count (lines : list string) : result Z :=
  match index lines 0 CountLine with
  | Val l =>
      match PyStr.int (PyStr.strip l) with
      | Some n => Val n
      | None => Raised (ValueError (PyStr.strip l))
      end
  | Exit st => Exit st
  | Raised e => Raised e
  end.

(** [comment = lines[1].strip()]. *)
Definition read_comment (lines : list string) : result string :=
  match index lines 1 CommentLine with
  | Val l => Val (PyStr.strip l)
  | Exit st => Exit st
  | Raised e => Raised e
  end.

(** The loop [for i in range(2, 2 + n_atoms)], started at index [i]
    with [count] iterations left and [geom_lines] collected so far. *)
Fixpoint geom_loop (lines : list string) (i count : nat)
         (geom_lines : list string) : result (list string) :=
  match count with
  | O => Val geom_lines
  | S k =>
      match index lines i (AtomLine i) with
      | Val l => geom_loop lines (S i) k (geom_lines ++ [PyStr.strip l])
      | Exit st => Exit st
      | Raised e => Raised e
      end
  end.

(** [range(2, 2 + n)] has [max(0, n)] elements. *)
Definition range_length (n : Z) : nat := Z.to_nat n.

(** From [lines] to [geom_lines]. *)
Definition geometry_lines (lines : list string) : result (list string) :=
  match read_count lines with
  | Val n_atoms =>
      match read_comment lines with
      | Val _ => geom_loop lines 2 (range_length n_atoms) []
      | Exit st => Exit st
      | Raised e => Raised e
      end
  | Exit st => Exit st
  | Raised e => Raised e
  end.

(** From [lines] to [geom_str]. *)
Definition geometry (lines : list string) : result string :=
  match geometry_lines lines with
  | Val geom_lines => Val (PyStr.join nl geom_lines)
  | Exit st => Exit st
  | Raised e => Raised e
  end.

(** The f-string handed to [psi4.geometry]. *)
Definition molecule_spec (geom_str : string) : string :=
  nl +:+ "    0 1" +:+ nl +:+ "    " +:+ geom_str +:+ nl +:+ "    ".

End Xyz.

(** ** The script, in a state-and-exit monad over the world *)

Section Script.

Context (P : psi4_engine).

Record world := World {
  fs : files;                  (* the file system *)
  psi4_importable : bool;      (* does [import psi4] succeed? *)
  engine : psi4_state P;       (* the engine's own state *)
  stdout : list string;        (* one entry per [print] call *)
  trace : list event           (* environment accesses, in order *)
}.

Definition M (A : Type) : Type := world -> result A * world.

Definition ret {A} (a : A) : M A := fun w => (Val a, w).

Definition bind {A B} (c : M A) (k : A -> M B) : M B :=
  fun w =>
    match c w with
    | (Val a, w') => k a w'
    | (Exit st, w') => (Exit st, w')
    | (Raised e, w') => (Raised e, w')
    end.

Local Notation "x <- c ;; k" := (bind c (fun x => k))
  (at level 100, c at next level, right associativity).
Local Notation "c ;; k" := (bind c (fun _ => k))
  (at level 100, right associativity).

Definition lift {A} (r : result A) : M A := fun w => (r, w).

Definition log (ev : event) : M unit :=
  fun w => (Val tt, World (fs w) (psi4_importable w) (engine w)
                          (stdout w) (trace w ++ [ev])).

Definition print (s : string) : M unit :=
  fun w => (Val tt, World (fs w) (psi4_importable w) (engine w)
                          (stdout w ++ [s]) (trace w)).

Definition sys_exit {A} (status : Z) : M A := fun w => (Exit status, w).

(** [os.path.exists(path)]. *)
Definition path_exists (path : string) : M bool :=
  log (EvExists path);;
  fun w => (Val (bool_decide (is_Some (fs w !! path))), w).

(** [import psi4] under [try]/[except ImportError]: [true] when the
    import succeeds. *)
Definition try_import_psi4 : M bool :=
  log EvImport;;
  fun w => (Val (psi4_importable w), w).

(** [with open(path, 'r') as f: lines = f.readlines()]. *)
Definition open_readlines (path : string) : M (list string) :=
  log (EvOpenRead path);;
  fun w =>
    match fs w !! path with
    | Some content => (Val (PyStr.readlines content), w)
    | None => (Raised (FileNotFoundError path), w)
    end.

(** [os.rename(src, dst)]: an existing [dst] is replaced; the call
    raises when [src] is missing or the operating system refuses. *)
Definition os_rename (src dst : string) : M unit :=
  fun w =>
    match fs w !! src with
    | Some content =>
        match rename_refusal (fs w) src dst with
        | None =>
            (Val tt, World (<[dst := content]> (delete src (fs w)))
                           (psi4_importable w) (engine w) (stdout w)
                           (trace w ++ [EvRename src dst]))
        | Some msg =>
            (Raised (OSError msg),
             World (fs w) (psi4_importable w) (engine w) (stdout w)
                   (trace w ++ [EvRenameFailed src dst]))
        end
    | None =>
        (Raised (FileNotFoundError src),
         World (fs w) (psi4_importable w) (engine w) (stdout w)
               (trace w ++ [EvRenameFailed src dst]))
    end.

(** A call into the engine. *)
Definition psi4 {A} (c : psi4_call)
           (f : psi4_state P -> files -> reply (psi4_state P) A) : M A :=
  log (EvEngine c);;
  fun w =>
    match f (engine w) (fs w) with
    | Returns a s f' =>
        (Val a, World f' (psi4_importable w) s (stdout w) (trace w))
    | Fails msg => (Raised (EngineError msg), w)
    end.

Definition esp_options : list (string * option_value) :=
  [ ("basis", OptStr "6-31G*");
    ("scf_type", OptStr "df");
    ("cubeprop_tasks", OptStrs ["ESP"]);
    ("cubic_grid_spacing", OptFloats ["0.3"; "0.3"; "0.3"]);
    ("cubic_grid_overage", OptFloats ["4.0"; "4.0"; "4.0"]) ].

Definition cube_path (xyz_file : string) : string :=
  let base_name := fst (PyPath.splitext xyz_file) in
  base_name +:+ "_esp.cube".

Definition generate_esp_psi4 (xyz_file : string) : M unit :=
  ok <- try_import_psi4;;
  if negb ok then
    print "Error: Psi4 not installed";;
    print "Install with: conda install -c conda-forge psi4";;
    sys_exit 1
  else
    lines <- open_readlines xyz_file;;
    geom_str <- lift (Xyz.geometry lines);;
    psi4 (CallGeometry (Xyz.molecule_spec geom_str))
         (psi4_geometry P (Xyz.molecule_spec geom_str));;
    psi4 (CallSetOptions esp_options) (psi4_set_options P esp_options);;
    print ("Running DFT calculation on " +:+ xyz_file +:+ "...");;
    print "This may take a few minutes...";;
    energy <- psi4 (CallEnergy "B3LYP") (psi4_energy P "B3LYP");;
    print ("SCF Energy: " +:+ format_6f P energy +:+ " Hartree");;
    psi4 CallCubeprop (psi4_cubeprop P);;
    let cube_file := cube_path xyz_file in
    found <- path_exists "ESP.cube";;
    if found then
      os_rename "ESP.cube" cube_file;;
      print (nl +:+ "ESP cube file created: " +:+ cube_file);;
      print (nl +:+ "Now run:");;
      print ("  ./charge_optimizer " +:+ xyz_file +:+ " " +:+ cube_file)
    else
      print (nl +:+ "Error: ESP.cube not generated");;
      sys_exit 1.

(** The [if __name__ == '__main__'] block, on [sys.argv]. *)
Definition main (argv : list string) : M unit :=
  if negb (length argv =? 2)%nat then
    print "Usage: python generate_esp.py molecule.xyz";;
    sys_exit 1
  else
    match argv !! 1%nat with
    | None => lift (Raised (IndexError ArgvOne))
    | Some xyz_file =>
        found <- path_exists xyz_file;;
        if negb found then
          print ("Error: File not found: " +:+ xyz_file);;
          sys_exit 1
        else generate_esp_psi4 xyz_file
    end.

End Script.

Arguments World {P} fs psi4_importable engine stdout trace.
Arguments fs {P} w.
Arguments psi4_importable {P} w.
Arguments engine {P} w.
Arguments stdout {P} w.
Arguments trace {P} w.

(** The world at process start: nothing printed, nothing accessed. *)
Definition boot (P : psi4_engine) (f : files) (importable : bool)
           (s : psi4_state P) : world P :=
  World f importable s [] [].

(** The four engine calls of one run, without the script around them. *)
Definition calculation (P : psi4_engine) (spec : string)
           (s : psi4_state P) (f : files)
  : reply (psi4_state P) (psi4_float P) :=
  match psi4_geometry P spec s f with
  | Fails msg => Fails msg
  | Returns _ s1 f1 =>
      match psi4_set_options P esp_options s1 f1 with
      | Fails msg => Fails msg
      | Returns _ s2 f2 =>
          match psi4_energy P "B3LYP" s2 f2 with
          | Fails msg => Fails msg
          | Returns energy s3 f3 =>
              match psi4_cubeprop P s3 f3 with
              | Fails msg => Fails msg
              | Returns _ s4 f4 => Returns energy s4 f4
              end
          end
      end
  end.

(** ** Sample engines, for running the script on concrete inputs *)

(** An engine that records its calls and writes [ESP.cube] on
    [cubeprop]; energies are carried as already formatted text. *)
Definition cube_writer : psi4_engine := {|
  psi4_state := list psi4_call;
  psi4_float := string;
  format_6f := fun e => e;
  psi4_geometry := fun spec s f => Returns tt (s ++ [CallGeometry spec]) f;
  psi4_set_options := fun o s f => Returns tt (s ++ [CallSetOptions o]) f;
  psi4_energy := fun m s f => Returns "-76.026760" (s ++ [CallEnergy m]) f;
  psi4_cubeprop := fun s f =>
    Returns tt (s ++ [CallCubeprop]) (<["ESP.cube" := "cube data"]> f)
|}.

(** An engine that completes every call and writes nothing. *)
Definition silent_engine : psi4_engine := {|
  psi4_state := unit;
  psi4_float := string;
  format_6f := fun e => e;
  psi4_geometry := fun _ s f => Returns tt s f;
  psi4_set_options := fun _ s f => Returns tt s f;
  psi4_energy := fun _ s f => Returns "0.000000" s f;
  psi4_cubeprop := fun s f => Returns tt s f
|}.

Definition water_xyz : string :=
  "3" +:+ nl +:+ "water molecule" +:+ nl +:+
  "O  0.000  0.000  0.117" +:+ nl +:+
  "H  0.000  0.757 -0.471" +:+ nl +:+
  "H  0.000 -0.757 -0.471" +:+ nl.

Definition water_files : files := {[ "water.xyz" := water_xyz ]}.

(** The same file on a system that refuses every rename. *)
Definition refusing_files : files :=
  Files (entries water_files) (fun dir => dir)
        (fun _ _ => Some "Invalid cross-device link").

(** A working directory that is also reached as [./], holding an input
    named [ESP.cube]. *)
Definition here_view (dir : string) : string :=
  if String.eqb dir "./" then "" else dir.

Definition here_files : files :=
  Files (entries ({[ "ESP.cube" := water_xyz ]} : files)) here_view
        (fun _ _ => None).

(** The same working directory, holding [water.xyz]. *)
Definition here_water_files : files :=
  Files (entries water_files) here_view (fun _ _ => None).


(** An atom line with white space on both sides. *)
Definition indented_xyz : string :=
  "1" +:+ nl +:+ "hydrogen atom" +:+ nl +:+ "  H 0.0 0.0 0.0 " +:+ nl.

(** A file whose first line is not an atom count. *)
Definition malformed_xyz : string :=
  "three" +:+ nl +:+ "water molecule" +:+ nl +:+
  "O  0.000  0.000  0.117" +:+ nl.




(** ** Specification vocabulary *)

(** Every character is white space. *)
Fixpoint all_space (s : string) : bool :=
  match s with
  | EmptyString => true
  | String c r => PyStr.isspace c && all_space r
  end.

Fixpoint last_char (s : string) : option ascii :=
  match s with
  | EmptyString => None
  | String c EmptyString => Some c
  | String _ r => last_char r
  end.

(** Neither the first nor the last character is white space. *)
Definition trimmed (s : string) : bool :=
  match s with
  | EmptyString => true
  | String c _ =>
      negb (PyStr.isspace c) &&
      match last_char s with Some d => negb (PyStr.isspace d) | None => true end
  end.

(** [line] is [core] with white space around it. *)
Definition padded (line core : string) : Prop :=
  exists a b, all_space a = true /\ all_space b = true /\
              trimmed core = true /\ line = a +:+ core +:+ b.

(** The atom lines of a file, as they stand in it. *)
Definition atom_lines (lines : list string) (n : Z) : list string :=
  take (Z.to_nat n) (drop 2 lines).

(** A line without its terminator. *)
Fixpoint chomp (s : string) : string :=
  match s with
  | EmptyString => EmptyString
  | String c r =>
      match r with
      | EmptyString => if Ascii.eqb c PyStr.LF then EmptyString else s
      | String _ _ => String c (chomp r)
      end
  end.

(** The name [<input_basename>_esp.cube], a file of the working
    directory: the base name of the input without its extension. *)
Definition working_dir_cube_name (xyz_file : string) : string :=
  fst (PyPath.splitext (PyPath.basename xyz_file)) +:+ "_esp.cube".

(** What a run prints up to the cube generation. *)
Definition progress_messages (energy_text xyz : string) : list string :=
  ["Running DFT calculation on " +:+ xyz +:+ "...";
   "This may take a few minutes...";
   "SCF Energy: " +:+ energy_text +:+ " Hartree"].

(** What a run prints when the engine delivers, and when it does not. *)
Definition success_messages (energy_text xyz cube : string) : list string :=
  ["Running DFT calculation on " +:+ xyz +:+ "...";
   "This may take a few minutes...";
   "SCF Energy: " +:+ energy_text +:+ " Hartree";
   nl +:+ "ESP cube file created: " +:+ cube;
   nl +:+ "Now run:";
   "  ./charge_optimizer " +:+ xyz +:+ " " +:+ cube].

Definition no_cube_messages (energy_text xyz : string) : list string :=
  ["Running DFT calculation on " +:+ xyz +:+ "...";
   "This may take a few minutes...";
   "SCF Energy: " +:+ energy_text +:+ " Hartree";
   nl +:+ "Error: ESP.cube not generated"].

Definition install_hint : list string :=
  ["Error: Psi4 not installed";
   "Install with: conda install -c conda-forge psi4"].

Definition usage_text : string := "Usage: python generate_esp.py molecule.xyz".

Definition not_found_message (xyz : string) : string :=
  "Error: File not found: " +:+ xyz.

Definition engine_events (spec : string) : list event :=
  [EvEngine (CallGeometry spec); EvEngine (CallSetOptions esp_options);
   EvEngine (CallEnergy "B3LYP"); EvEngine CallCubeprop].

(** The molecule specifications handed to [psi4.geometry] in a trace. *)
Definition geometry_spec_of (ev : event) : option string :=
  match ev with
  | EvEngine (CallGeometry spec) => Some spec
  | _ => None
  end.

Definition geometry_specs (tr : list event) : list string :=
  omap geometry_spec_of tr.

(** The specification a run hands over, from what it finds. *)
Definition spec_handed_over (importable : bool) (file : option string)
  : list string :=
  if importable then
    match file with
    | Some content =>
        match Xyz.geometry (PyStr.readlines content) with
        | Val geom_str => [Xyz.molecule_spec geom_str]
        | _ => []
        end
    | None => []
    end
  else [].

(** Events that read a file's contents or call into the engine. *)
Definition reads_or_calculates (ev : event) : bool :=
  match ev with
  | EvOpenRead _ | EvEngine _ => true
  | _ => false
  end.

(** The handled way to fail: a message on standard output, then
    [sys.exit(1)]. *)
Definition reports_failure {P} (w : world P) (out : result unit * world P)
  : Prop :=
  fst out = Exit 1 /\
  exists msgs, msgs <> [] /\ stdout (snd out) = stdout w ++ msgs.

(** The world after further accesses. *)
Definition logged {P} (evs : list event) (w : world P) : world P :=
  World (fs w) (psi4_importable w) (engine w) (stdout w) (trace w ++ evs).

Ltac run_script :=
  unfold generate_esp_psi4, bind, try_import_psi4, open_readlines, psi4,
    path_exists, os_rename, lift, bind, log, print, sys_exit; simpl.

(** Case analysis along a run of the script. *)
Ltac walk_step :=
  match goal with
  | |- context [psi4_importable ?w] =>
      is_var w; destruct (psi4_importable w) eqn:?; simpl
  | |- context [bool_decide (is_Some (?f !! ?p))] =>
      let H := fresh "Hfile" in
      destruct (f !! p) eqn:H;
      [rewrite bool_decide_true by eauto
      |rewrite bool_decide_false by (intros [? ?]; congruence)]; simpl
  | |- context [match ?f !! ?p with _ => _ end] =>
      destruct (f !! p) eqn:?; simpl
  | |- context [Xyz.geometry ?l] =>
      destruct (Xyz.geometry l) eqn:?; simpl
  | |- context [psi4_geometry ?P ?a ?s ?f] =>
      destruct (psi4_geometry P a s f) as [?|[] ? ?] eqn:?; simpl
  | |- context [psi4_set_options ?P ?a ?s ?f] =>
      destruct (psi4_set_options P a s f) as [?|[] ? ?] eqn:?; simpl
  | |- context [psi4_energy ?P ?a ?s ?f] =>
      destruct (psi4_energy P a s f) as [?|? ? ?] eqn:?; simpl
  | |- context [psi4_cubeprop ?P ?s ?f] =>
      destruct (psi4_cubeprop P s f) as [?|[] ? ?] eqn:?; simpl
  | |- context [rename_refusal ?f ?src ?dst] =>
      destruct (rename_refusal f src dst) eqn:?; simpl
  end.

Ltac walk := run_script; repeat walk_step.

(** ** Vocabulary for the properties of whole runs *)

(** The engine calls, the renames and the opens recorded in a trace. *)
Definition engine_call_of (ev : event) : option psi4_call :=
  match ev with EvEngine c => Some c | _ => None end.

Definition engine_calls (tr : list event) : list psi4_call :=
  omap engine_call_of tr.

Definition rename_of (ev : event) : option (string * string) :=
  match ev with EvRename src dst => Some (src, dst) | _ => None end.

Definition renames (tr : list event) : list (string * string) :=
  omap rename_of tr.

Definition open_of (ev : event) : option string :=
  match ev with EvOpenRead path => Some path | _ => None end.

Definition opens (tr : list event) : list string := omap open_of tr.

(** The calls of one complete calculation, in the order of the source. *)
Definition calculation_calls (spec : string) : list psi4_call :=
  [CallGeometry spec; CallSetOptions esp_options;
   CallEnergy "B3LYP"; CallCubeprop].

(** All checks before the first engine call pass: one argument, naming
    an existing file that parses, and an importable engine. *)
Definition ready {P} (argv : list string) (w : world P) (xyz g : string)
  : Prop :=
  (exists a0, argv = [a0; xyz]) /\
  psi4_importable w = true /\
  exists content, fs w !! xyz = Some content /\
                  Xyz.geometry (PyStr.readlines content) = Val g.

(** An engine that never changes the file at [path]. *)
Definition engine_preserves (P : psi4_engine) (path : string) : Prop :=
  (forall spec s f a s' f',
     psi4_geometry P spec s f = Returns a s' f' -> f' !! path = f !! path) /\
  (forall opts s f a s' f',
     psi4_set_options P opts s f = Returns a s' f' ->
     f' !! path = f !! path) /\
  (forall method s f a s' f',
     psi4_energy P method s f = Returns a s' f' -> f' !! path = f !! path) /\
  (forall s f a s' f',
     psi4_cubeprop P s f = Returns a s' f' -> f' !! path = f !! path).

(** An engine that never touches the file system. *)
Definition engine_writes_nothing (P : psi4_engine) : Prop :=
  forall path, engine_preserves P path.

(** The argument that names the input, when there is exactly one. *)
Definition input_path (argv : list string) : option string :=
  match argv with
  | [_; xyz_file] => Some xyz_file
  | _ => None
  end.

(** The line that announces the cube file. *)
Definition created_message (cube : string) : string :=
  nl +:+ "ESP cube file created: " +:+ cube.

(** Further sample inputs. *)
Definition zero_xyz : string := "0" +:+ nl +:+ "no atoms" +:+ nl.

Definition one_line_xyz : string := "2" +:+ nl.

Definition water_xyz_spaced : string :=
  "  3  " +:+ nl +:+ "water molecule" +:+ nl +:+
  "   O  0.000  0.000  0.117  " +:+ nl +:+
  "H  0.000  0.757 -0.471 " +:+ nl +:+
  " H  0.000 -0.757 -0.471".

Definition stale_files : files := <["ESP.cube" := "stale cube"]> water_files.

Definition lab_files : files := <["notes.txt" := "keep me"]> water_files.

(** * Properties *)

(** ** The runtime primitives on concrete inputs *)

Example readlines_water :
  PyStr.readlines ("3" +:+ nl +:+ "water" +:+ String PyStr.CR nl +:+ "O 0 0 0")
  = ["3" +:+ nl; "water" +:+ nl; "O 0 0 0"].
Proof. reflexivity. Qed.

Example int_examples :
  PyStr.int (" 12" +:+ nl) = Some 12 /\ PyStr.int "-3" = Some (-3) /\
  PyStr.int "1_0" = Some 10 /\ PyStr.int "1__0" = None /\
  PyStr.int "three" = None /\ PyStr.int "" = None /\ PyStr.int "+ 1" = None.
Proof. repeat split; reflexivity. Qed.

Example strip_example :
  PyStr.strip ("  H 0.0  1.0 2.0 " +:+ nl) = "H 0.0  1.0 2.0".
Proof. reflexivity. Qed.

Example splitext_examples :
  PyPath.splitext "water.xyz" = ("water", ".xyz") /\
  PyPath.splitext "data/water.xyz" = ("data/water", ".xyz") /\
  PyPath.splitext "a.b/water" = ("a.b/water", "") /\
  PyPath.splitext ".bashrc" = (".bashrc", "") /\
  PyPath.splitext "dir/..x.tar.gz" = ("dir/..x.tar", ".gz") /\
  PyPath.splitext "ESP.cube" = ("ESP", ".cube").
Proof. repeat split; reflexivity. Qed.

Example water_geometry :
  Xyz.geometry (PyStr.readlines water_xyz)
  = Val ("O  0.000  0.000  0.117" +:+ nl +:+
         "H  0.000  0.757 -0.471" +:+ nl +:+
         "H  0.000 -0.757 -0.471").
Proof. reflexivity. Qed.

Example run_water :
  main cube_writer ["generate_esp.py"; "water.xyz"]
       (boot cube_writer water_files true [])
  = (Val tt,
     @World cube_writer
           (<["water_esp.cube" := "cube data"]> water_files) true
           [CallGeometry (Xyz.molecule_spec
              ("O  0.000  0.000  0.117" +:+ nl +:+
               "H  0.000  0.757 -0.471" +:+ nl +:+
               "H  0.000 -0.757 -0.471"));
            CallSetOptions esp_options; CallEnergy "B3LYP"; CallCubeprop]
           ["Running DFT calculation on water.xyz...";
            "This may take a few minutes...";
            "SCF Energy: -76.026760 Hartree";
            nl +:+ "ESP cube file created: water_esp.cube";
            nl +:+ "Now run:";
            "  ./charge_optimizer water.xyz water_esp.cube"]
           [EvExists "water.xyz"; EvImport; EvOpenRead "water.xyz";
            EvEngine (CallGeometry (Xyz.molecule_spec
              ("O  0.000  0.000  0.117" +:+ nl +:+
               "H  0.000  0.757 -0.471" +:+ nl +:+
               "H  0.000 -0.757 -0.471")));
            EvEngine (CallSetOptions esp_options);
            EvEngine (CallEnergy "B3LYP"); EvEngine CallCubeprop;
            EvExists "ESP.cube"; EvRename "ESP.cube" "water_esp.cube"]).
Proof. vm_compute. reflexivity. Qed.

(** ** Facts about the text primitives *)

Lemma string_app_cons c (r s : string) : String c r +:+ s = String c (r +:+ s).
Proof. reflexivity. Qed.

Lemma string_app_nil_l (s : string) : "" +:+ s = s.
Proof. reflexivity. Qed.

Lemma string_app_nil_r (s : string) : s +:+ "" = s.
Proof.
  induction s as [|c r IH]; [reflexivity|].
  now rewrite string_app_cons, IH.
Qed.

Lemma string_app_length (a b : string) :
  String.length (a +:+ b) = (String.length a + String.length b)%nat.
Proof.
  induction a as [|x r IH]; [reflexivity|].
  rewrite string_app_cons. simpl. now rewrite IH.
Qed.

Lemma lstrip_all_space a s :
  all_space a = true -> PyStr.lstrip (a +:+ s) = PyStr.lstrip s.
Proof.
  induction a as [|c r IH]; [reflexivity|].
  rewrite string_app_cons. simpl.
  intros [Hc Hr]%andb_true_iff. rewrite Hc. auto.
Qed.

Lemma lstrip_only_space b : all_space b = true -> PyStr.lstrip b = "".
Proof.
  induction b as [|x b IH]; simpl; [reflexivity|].
  intros [-> Hb]%andb_true_iff. auto.
Qed.

Lemma rstrip_all_space b : all_space b = true -> PyStr.rstrip b = "".
Proof.
  induction b as [|c r IH]; simpl; [reflexivity|].
  intros [Hc Hr]%andb_true_iff. rewrite (IH Hr), Hc. reflexivity.
Qed.

Lemma rstrip_keeps_last s c :
  last_char s = Some c -> PyStr.isspace c = false ->
  forall b, all_space b = true -> PyStr.rstrip (s +:+ b) = s.
Proof.
  induction s as [|x r IH]; [discriminate|].
  intros Hlast Hc b Hb. rewrite string_app_cons. destruct r as [|y r'].
  - injection Hlast as ->. rewrite string_app_nil_l. simpl.
    rewrite (rstrip_all_space b Hb), Hc. reflexivity.
  - specialize (IH Hlast Hc b Hb). cbn [PyStr.rstrip]. rewrite IH. simpl.
    rewrite andb_false_r. reflexivity.
Qed.

Lemma last_char_cons c r : exists d, last_char (String c r) = Some d.
Proof.
  revert c. induction r as [|y r' IH]; intros c; simpl; [eauto|].
  apply (IH y).
Qed.

(** [strip] removes exactly the surrounding white space. *)
Lemma strip_padded line core : padded line core -> PyStr.strip line = core.
Proof.
  intros (a & b & Ha & Hb & Hcore & ->). unfold PyStr.strip.
  rewrite (lstrip_all_space a _ Ha). destruct core as [|c r].
  - rewrite string_app_nil_l, (lstrip_only_space b Hb). reflexivity.
  - unfold trimmed in Hcore. apply andb_true_iff in Hcore as [Hc Hl].
    apply negb_true_iff in Hc.
    rewrite string_app_cons. cbn [PyStr.lstrip]. rewrite Hc.
    destruct (last_char_cons c r) as [d Hd]. rewrite Hd in Hl.
    apply negb_true_iff in Hl.
    rewrite <- string_app_cons.
    now apply (rstrip_keeps_last _ d).
Qed.

(** ** Facts about paths *)

Lemma str_take_drop n s : PyPath.take n s +:+ PyPath.drop n s = s.
Proof.
  revert s. induction n as [|k IH]; intros [|c r]; simpl; try reflexivity.
  now rewrite string_app_cons, IH.
Qed.

Lemma rfind_drop c s i :
  PyPath.rfind c s = Some i -> exists r, PyPath.drop i s = String c r.
Proof.
  revert i. induction s as [|d r IH]; intros i; simpl; [discriminate|].
  destruct (PyPath.rfind c r) as [j|] eqn:Hj.
  - intros [= <-]. simpl. now apply IH.
  - destruct (Ascii.eqb_spec d c) as [->|]; [|discriminate].
    intros [= <-]. simpl. eauto.
Qed.

Lemma rfind_lt c s i : PyPath.rfind c s = Some i -> (i < String.length s)%nat.
Proof.
  revert i. induction s as [|d r IH]; intros i; simpl; [discriminate|].
  destruct (PyPath.rfind c r) as [j|] eqn:Hj.
  - intros [= <-]. specialize (IH j eq_refl). lia.
  - destruct (Ascii.eqb d c); [|discriminate]. intros [= <-]. lia.
Qed.

(** The two halves of [splitext] make up the path, and the extension is
    empty or begins with a dot. *)
Lemma splitext_app p :
  fst (PyPath.splitext p) +:+ snd (PyPath.splitext p) = p.
Proof.
  unfold PyPath.splitext.
  destruct (_ <? _); [|apply string_app_nil_r].
  destruct (PyPath.has_non_dot _ _ _); [|apply string_app_nil_r].
  apply str_take_drop.
Qed.

Lemma splitext_ext p :
  snd (PyPath.splitext p) = "" \/
  exists r, snd (PyPath.splitext p) = String "."%char r.
Proof.
  unfold PyPath.splitext.
  destruct (Z.ltb_spec (PyPath.rfind_index "/" p) (PyPath.rfind_index "." p))
    as [Hlt|]; [|now left].
  destruct (PyPath.has_non_dot _ _ _); [|now left].
  right. simpl. unfold PyPath.rfind_index in *.
  destruct (PyPath.rfind "." p) as [i|] eqn:Hi.
  - rewrite Nat2Z.id. now apply rfind_drop.
  - destruct (PyPath.rfind "/" p); lia.
Qed.



Lemma rfind_app_absent c s t :
  PyPath.rfind c t = None -> PyPath.rfind c (s +:+ t) = PyPath.rfind c s.
Proof.
  intros Ht. induction s as [|d r IH]; [exact Ht|].
  rewrite string_app_cons. simpl. now rewrite IH.
Qed.

Lemma rfind_take c s : forall d,
  (forall i, PyPath.rfind c s = Some i -> (i < d)%nat) ->
  PyPath.rfind c (PyPath.take d s) = PyPath.rfind c s.
Proof.
  induction s as [|x r IH]; intros d Hd; [now destruct d|].
  destruct d as [|k].
  - simpl in *. destruct (PyPath.rfind c r) as [j|].
    + specialize (Hd _ eq_refl). lia.
    + destruct (Ascii.eqb x c); [|reflexivity].
      specialize (Hd _ eq_refl). lia.
  - simpl in *. rewrite IH; [reflexivity|].
    intros i Hi. rewrite Hi in Hd. specialize (Hd _ eq_refl). lia.
Qed.

Lemma str_take_app_le k : forall s t,
  (k <= String.length s)%nat -> PyPath.take k (s +:+ t) = PyPath.take k s.
Proof.
  induction k as [|k IH]; intros s t Hk; [reflexivity|].
  destruct s as [|c r]; simpl in Hk; [lia|].
  rewrite string_app_cons. simpl. rewrite IH by lia. reflexivity.
Qed.

Lemma str_take_take k : forall d s,
  (k <= d)%nat -> PyPath.take k (PyPath.take d s) = PyPath.take k s.
Proof.
  induction k as [|k IH]; intros [|d] [|c r] Hk; simpl; try reflexivity; try lia.
  rewrite IH by lia. reflexivity.
Qed.

Lemma str_take_length d : forall s,
  (d <= String.length s)%nat -> String.length (PyPath.take d s) = d.
Proof.
  induction d as [|d IH]; intros [|c r] Hd; simpl in *; try reflexivity; try lia.
  rewrite IH by lia. reflexivity.
Qed.

Lemma splitext_root_facts xyz :
  let root := fst (PyPath.splitext xyz) in
  PyPath.rfind "/" root = PyPath.rfind "/" xyz /\
  (forall j, PyPath.rfind "/" xyz = Some j -> (j < String.length root)%nat) /\
  (forall k, (k <= String.length root)%nat ->
             PyPath.take k root = PyPath.take k xyz).
Proof.
  unfold PyPath.splitext.
  destruct (Z.ltb_spec (PyPath.rfind_index "/" xyz) (PyPath.rfind_index "." xyz))
    as [Hlt|]; [|simpl; eauto using rfind_lt].
  destruct (PyPath.has_non_dot _ _ _); [|simpl; eauto using rfind_lt].
  simpl. unfold PyPath.rfind_index in *.
  destruct (PyPath.rfind "." xyz) as [i|] eqn:Hi;
    [|destruct (PyPath.rfind "/" xyz); lia].
  rewrite Nat2Z.id. pose proof (rfind_lt _ _ _ Hi) as Hilen.
  rewrite str_take_length by lia. repeat split.
  - apply rfind_take. intros j Hj. rewrite Hj in Hlt. lia.
  - intros j Hj. rewrite Hj in Hlt. lia.
  - intros k Hk. now apply str_take_take.
Qed.

(** The output path lies in the directory of the input path. *)
Lemma cube_path_dir xyz : PyPath.dir_part (cube_path xyz) = PyPath.dir_part xyz.
Proof.
  destruct (splitext_root_facts xyz) as (Hsep & Hlt & Htake).
  unfold PyPath.dir_part, PyPath.rfind_index, cube_path.
  rewrite rfind_app_absent, Hsep by reflexivity.
  destruct (PyPath.rfind "/" xyz) as [j|]; [|reflexivity].
  specialize (Hlt j eq_refl).
  rewrite str_take_app_le by lia. apply Htake. lia.
Qed.

Lemma cube_path_no_dir xyz :
  PyPath.rfind "/" xyz = None -> PyPath.rfind "/" (cube_path xyz) = None.
Proof.
  intros H. destruct (splitext_root_facts xyz) as (Hsep & _).
  unfold cube_path. now rewrite rfind_app_absent, Hsep by reflexivity.
Qed.

(** ** Facts about the file system *)

Lemma fs_lookup_unfold (f : files) path :
  f !! path = entries f !! resolve f path.
Proof. reflexivity. Qed.

Lemma fs_lookup_insert_eq (f : files) path content :
  <[path := content]> f !! path = Some content.
Proof.
  rewrite fs_lookup_unfold. unfold insert, files_insert, resolve. simpl.
  apply lookup_insert_eq.
Qed.

Lemma fs_lookup_insert_same (f : files) p q content :
  same_file f p q -> <[p := content]> f !! q = Some content.
Proof.
  intros Hsame. rewrite fs_lookup_unfold.
  unfold insert, files_insert, resolve. simpl.
  unfold same_file, resolve in Hsame. rewrite Hsame.
  apply lookup_insert_eq.
Qed.

Lemma fs_lookup_insert_ne (f : files) p q content :
  ~ same_file f p q -> <[p := content]> f !! q = f !! q.
Proof.
  intros Hne. rewrite !fs_lookup_unfold.
  unfold insert, files_insert, resolve. simpl.
  now apply lookup_insert_ne.
Qed.

Lemma fs_lookup_delete_same (f : files) p q :
  same_file f p q -> delete p f !! q = None.
Proof.
  intros Hsame. rewrite fs_lookup_unfold.
  unfold delete, files_delete, resolve. simpl.
  unfold same_file, resolve in Hsame. rewrite Hsame.
  apply lookup_delete_eq.
Qed.

Lemma fs_lookup_delete_eq (f : files) path : delete path f !! path = None.
Proof. now apply fs_lookup_delete_same. Qed.

Lemma fs_lookup_delete_ne (f : files) p q :
  ~ same_file f p q -> delete p f !! q = f !! q.
Proof.
  intros Hne. rewrite !fs_lookup_unfold.
  unfold delete, files_delete, resolve. simpl.
  now apply lookup_delete_ne.
Qed.

(** Writing and removing leave the resolution of paths as it was. *)
Lemma same_file_insert (f : files) path content p q :
  same_file (<[path := content]> f) p q <-> same_file f p q.
Proof. reflexivity. Qed.

Lemma same_file_delete (f : files) path p q :
  same_file (delete path f) p q <-> same_file f p q.
Proof. reflexivity. Qed.

Lemma same_file_sym (f : files) p q : same_file f p q -> same_file f q p.
Proof. unfold same_file. congruence. Qed.

(** Files of different names are different files. *)
Lemma other_name_other_file (f : files) p q :
  PyPath.basename p <> PyPath.basename q -> ~ same_file f p q.
Proof. unfold same_file, resolve. congruence. Qed.

(** ** Facts about the name and the directory of the output path *)

Lemma str_drop_app_le k : forall s t,
  (k <= String.length s)%nat ->
  PyPath.drop k (s +:+ t) = PyPath.drop k s +:+ t.
Proof.
  induction k as [|k IH]; intros s t Hk; [reflexivity|].
  destruct s as [|c r]; simpl in Hk; [lia|].
  rewrite string_app_cons. simpl. apply IH. lia.
Qed.

(** The name of a path that is extended by text without separator. *)
Lemma basename_app s t :
  PyPath.rfind "/" t = None ->
  PyPath.basename (s +:+ t) = PyPath.basename s +:+ t.
Proof.
  intros Ht. unfold PyPath.basename, PyPath.rfind_index.
  rewrite (rfind_app_absent _ _ _ Ht).
  destruct (PyPath.rfind "/" s) as [i|] eqn:Hi; [|reflexivity].
  apply rfind_lt in Hi. apply str_drop_app_le. lia.
Qed.

(** The name of a path, from the name of its root and its extension. *)
Lemma basename_splitext p :
  PyPath.basename p
  = PyPath.basename (fst (PyPath.splitext p)) +:+ snd (PyPath.splitext p).
Proof.
  destruct (splitext_root_facts p) as (Hsep & Hlt & _).
  pose proof (splitext_app p) as Happ.
  unfold PyPath.basename, PyPath.rfind_index. rewrite Hsep.
  destruct (PyPath.rfind "/" p) as [i|] eqn:Hi.
  - specialize (Hlt i eq_refl).
    rewrite <- str_drop_app_le by lia. now rewrite Happ.
  - simpl. now rewrite Happ.
Qed.

Lemma basename_cube_path xyz :
  PyPath.basename (cube_path xyz)
  = PyPath.basename (fst (PyPath.splitext xyz)) +:+ "_esp.cube".
Proof. unfold cube_path. now apply basename_app. Qed.

(** The output path never names the file [ESP.cube], and never the
    input file, however the directories resolve. *)
Lemma cube_path_other_than_engine_output (f : files) xyz :
  ~ same_file f (cube_path xyz) "ESP.cube".
Proof.
  apply other_name_other_file. rewrite basename_cube_path.
  intros H. apply (f_equal String.length) in H.
  rewrite string_app_length in H. simpl in H. lia.
Qed.

Lemma cube_name_not_input_name xyz :
  PyPath.basename (cube_path xyz) <> PyPath.basename xyz.
Proof.
  rewrite basename_cube_path, (basename_splitext xyz).
  intros H. apply String.app_inj in H.
  destruct (splitext_ext xyz) as [He|[r He]]; rewrite He in H; discriminate.
Qed.

Lemma cube_path_other_than_input (f : files) xyz :
  ~ same_file f (cube_path xyz) xyz.
Proof. apply other_name_other_file, cube_name_not_input_name. Qed.

(** The output path lies in the directory of the input. *)
Lemma cube_path_same_dir (f : files) xyz :
  fst (resolve f (cube_path xyz)) = fst (resolve f xyz).
Proof. unfold resolve. simpl. now rewrite cube_path_dir. Qed.

Lemma rfind_after_drop c : forall k s,
  PyPath.rfind c (PyPath.drop k s)
  = match PyPath.rfind c s with
    | Some d => if (k <=? d)%nat then Some (d - k)%nat else None
    | None => None
    end.
Proof.
  induction k as [|k IH]; intros s.
  - simpl. destruct (PyPath.rfind c s) as [d|]; [|reflexivity].
    now rewrite Nat.sub_0_r.
  - destruct s as [|x r]; [reflexivity|]. simpl. rewrite IH.
    destruct (PyPath.rfind c r) as [d|]; [reflexivity|].
    now destruct (Ascii.eqb x c).
Qed.

Lemma get_after_drop : forall k s i,
  String.get i (PyPath.drop k s) = String.get (k + i) s.
Proof.
  induction k as [|k IH]; intros s i; [reflexivity|].
  destruct s as [|x r]; [now destruct i|]. simpl. apply IH.
Qed.

Lemma has_non_dot_after_drop k s : forall count from,
  PyPath.has_non_dot (PyPath.drop k s) from count
  = PyPath.has_non_dot s (k + from) count.
Proof.
  induction count as [|n IH]; intros from; [reflexivity|]. simpl.
  rewrite get_after_drop, IH. now rewrite Nat.add_succ_r.
Qed.

Lemma str_take_after_drop : forall k s j,
  PyPath.take j (PyPath.drop k s) = PyPath.drop k (PyPath.take (k + j) s).
Proof.
  induction k as [|k IH]; intros s j; [reflexivity|].
  destruct s as [|x r]; [now destruct j|]. simpl. apply IH.
Qed.

(** [splitext] works on the name: the root of the name is the name of
    the root. *)
Lemma splitext_basename p :
  fst (PyPath.splitext (PyPath.basename p))
  = PyPath.basename (fst (PyPath.splitext p)).
Proof.
  destruct (splitext_root_facts p) as (Hsep & _).
  assert (Hroot : PyPath.rfind_index "/" (fst (PyPath.splitext p))
                  = PyPath.rfind_index "/" p)
    by (unfold PyPath.rfind_index; now rewrite Hsep).
  unfold PyPath.basename. rewrite Hroot. clear Hsep Hroot.
  set (k := Z.to_nat (PyPath.rfind_index "/" p + 1)).
  assert (Hk : PyPath.rfind_index "/" p = Z.of_nat k - 1).
  { unfold k, PyPath.rfind_index. destruct (PyPath.rfind "/" p); lia. }
  assert (Hnosep : PyPath.rfind_index "/" (PyPath.drop k p) = -1).
  { unfold PyPath.rfind_index. rewrite rfind_after_drop.
    unfold k, PyPath.rfind_index.
    destruct (PyPath.rfind "/" p) as [i|]; [|reflexivity].
    destruct (Nat.leb_spec (Z.to_nat (Z.of_nat i + 1)) i); [lia|reflexivity]. }
  assert (Hdot : PyPath.rfind_index "." (PyPath.drop k p)
                 = match PyPath.rfind "." p with
                   | Some d => if (k <=? d)%nat then Z.of_nat (d - k) else -1
                   | None => -1
                   end).
  { unfold PyPath.rfind_index. rewrite rfind_after_drop.
    destruct (PyPath.rfind "." p) as [d|]; [|reflexivity].
    now destruct (k <=? d)%nat. }
  assert (Hdotp : PyPath.rfind_index "." p
                  = match PyPath.rfind "." p with
                    | Some d => Z.of_nat d
                    | None => -1
                    end) by reflexivity.
  clearbody k. unfold PyPath.splitext. rewrite Hnosep, Hdot, Hk, Hdotp.
  clear Hnosep Hdot Hk Hdotp.
  destruct (PyPath.rfind "." p) as [d|].
  - destruct (Nat.leb_spec k d) as [Hle|Hgt].
    + destruct (Z.ltb_spec (-1) (Z.of_nat (d - k))); [|lia].
      destruct (Z.ltb_spec (Z.of_nat k - 1) (Z.of_nat d)); [|lia].
      rewrite has_non_dot_after_drop.
      replace (Z.to_nat (-1 + 1)) with 0%nat by lia.
      replace (Z.to_nat (Z.of_nat (d - k) - (-1 + 1))) with (d - k)%nat by lia.
      replace (Z.to_nat (Z.of_nat k - 1 + 1)) with k by lia.
      replace (Z.to_nat (Z.of_nat d - (Z.of_nat k - 1 + 1)))
        with (d - k)%nat by lia.
      rewrite Nat.add_0_r.
      destruct (PyPath.has_non_dot p k (d - k)); [|reflexivity].
      simpl. rewrite !Nat2Z.id, str_take_after_drop. f_equal. f_equal. lia.
    + destruct (Z.ltb_spec (-1) (-1)); [lia|].
      destruct (Z.ltb_spec (Z.of_nat k - 1) (Z.of_nat d)); [lia|].
      reflexivity.
  - destruct (Z.ltb_spec (-1) (-1)); [lia|].
    destruct (Z.ltb_spec (Z.of_nat k - 1) (-1)); [lia|reflexivity].
Qed.

(** The output file is named [<input_basename>_esp.cube]. *)
Lemma cube_path_name xyz :
  PyPath.basename (cube_path xyz) = working_dir_cube_name xyz.
Proof.
  rewrite basename_cube_path. unfold working_dir_cube_name.
  now rewrite splitext_basename.
Qed.

(** ** Facts about the parsing block *)

Lemma geom_loop_in_range (lines : list string) count : forall i acc,
  (i + count <= length lines)%nat ->
  Xyz.geom_loop lines i count acc
  = Val (acc ++ (PyStr.strip <$> take count (drop i lines))).
Proof.
  induction count as [|k IH]; intros i acc Hlen; simpl.
  - now rewrite app_nil_r.
  - destruct (lookup_lt_is_Some_2 lines i) as [l Hl]; [lia|].
    unfold Xyz.index. rewrite Hl, IH by lia.
    rewrite (drop_S _ _ _ Hl). simpl. now rewrite <- app_assoc.
Qed.

Lemma geom_loop_out_of_range (lines : list string) count : forall i acc,
  (i <= length lines < i + count)%nat ->
  Xyz.geom_loop lines i count acc
  = Raised (IndexError (AtomLine (length lines))).
Proof.
  induction count as [|k IH]; intros i acc Hlen; simpl; [lia|].
  unfold Xyz.index. destruct (lines !! i) as [l|] eqn:Hl.
  - apply lookup_lt_Some in Hl. apply IH. lia.
  - apply lookup_ge_None in Hl. now replace i with (length lines) by lia.
Qed.


Lemma geometry_lines_headers (lines : list string) n :
  Xyz.read_count lines = Val n -> (2 <= length lines)%nat ->
  Xyz.geometry_lines lines = Xyz.geom_loop lines 2 (Xyz.range_length n) [].
Proof.
  intros Hn Hlen. unfold Xyz.geometry_lines, Xyz.read_comment, Xyz.index.
  rewrite Hn. destruct (lookup_lt_is_Some_2 lines 1) as [l Hl]; [lia|].
  now rewrite Hl.
Qed.


(** With enough lines the block yields the stripped atom lines. *)
Lemma geometry_lines_enough (lines : list string) n :
  Xyz.read_count lines = Val n ->
  2 + n <= Z.of_nat (length lines) -> (2 <= length lines)%nat ->
  Xyz.geometry_lines lines = Val (PyStr.strip <$> atom_lines lines n).
Proof.
  intros Hn Hlen H2. rewrite (geometry_lines_headers _ _ Hn H2).
  unfold Xyz.range_length. rewrite geom_loop_in_range by lia. reflexivity.
Qed.


(** The parsing block never leaves through [sys.exit]. *)
Lemma geometry_never_exits (lines : list string) st :
  Xyz.geometry lines <> Exit st.
Proof.
  assert (Hloop : forall count i acc, Xyz.geom_loop lines i count acc <> Exit st).
  { induction count as [|k IH]; intros i acc; simpl; [discriminate|].
    unfold Xyz.index. destruct (lines !! i); [apply IH | discriminate]. }
  unfold Xyz.geometry, Xyz.geometry_lines, Xyz.read_count, Xyz.read_comment,
    Xyz.index.
  destruct (lines !! 0%nat) as [l0|]; [|discriminate].
  destruct (PyStr.int (PyStr.strip l0)); [|discriminate].
  destruct (lines !! 1%nat); [|discriminate].
  specialize (Hloop (Xyz.range_length z) 2%nat []).
  destruct (Xyz.geom_loop lines 2 (Xyz.range_length z) []);
    [discriminate | congruence | discriminate].
Qed.



(** ** Facts about the script *)

Lemma omap_trace_app {A} (f : event -> option A) (tr evs : list event) r :
  omap f evs = r -> omap f (tr ++ evs) = omap f tr ++ r.
Proof. intros <-. apply omap_app. Qed.

Ltac trace_done :=
  rewrite <- ?app_assoc; simpl;
  first [ rewrite app_nil_r; reflexivity
        | apply omap_trace_app; reflexivity
        | reflexivity ].

Ltac stdout_done :=
  rewrite <- ?app_assoc; simpl;
  first [ rewrite app_nil_r; reflexivity | reflexivity
        | symmetry; apply app_nil_r ].

Lemma main_wrong_arity P argv (w : world P) :
  length argv <> 2%nat ->
  main P argv w
  = (Exit 1, World (fs w) (psi4_importable w) (engine w)
                   (stdout w ++ [usage_text]) (trace w)).
Proof.
  intros Hlen. unfold main.
  destruct (Nat.eqb_spec (length argv) 2) as [|_]; [contradiction|].
  reflexivity.
Qed.

Lemma main_one_argument P a0 xyz (w : world P) :
  main P [a0; xyz] w
  = if bool_decide (is_Some (fs w !! xyz))
    then generate_esp_psi4 P xyz (logged [EvExists xyz] w)
    else (Exit 1, World (fs w) (psi4_importable w) (engine w)
                        (stdout w ++ [not_found_message xyz])
                        (trace w ++ [EvExists xyz])).
Proof.
  unfold main. simpl. unfold bind, path_exists, bind, log. simpl.
  destruct (bool_decide _); reflexivity.
Qed.

Lemma input_path_Some argv xyz :
  input_path argv = Some xyz <-> exists a0, argv = [a0; xyz].
Proof.
  split.
  - destruct argv as [|a0 [|x [|? ?]]]; try discriminate.
    intros [= <-]. eauto.
  - now intros [a0 ->].
Qed.

Lemma input_path_None argv :
  input_path argv = None <-> length argv <> 2%nat.
Proof.
  destruct argv as [|a0 [|x [|? ?]]]; simpl; split;
    try discriminate; try lia; try reflexivity.
Qed.

Lemma argv_of_length_two (argv : list string) :
  length argv = 2%nat -> exists a0 xyz, argv = [a0; xyz].
Proof. destruct argv as [|a0 [|xyz [|? ?]]]; try discriminate. eauto. Qed.

Lemma generate_without_psi4 P xyz (w : world P) :
  psi4_importable w = false ->
  generate_esp_psi4 P xyz w
  = (Exit 1, World (fs w) false (engine w) (stdout w ++ install_hint)
                   (trace w ++ [EvImport])).
Proof.
  intros H. run_script. rewrite H. simpl. now rewrite <- app_assoc.
Qed.

Lemma generate_file_missing P xyz (w : world P) :
  psi4_importable w = true -> fs w !! xyz = None ->
  generate_esp_psi4 P xyz w
  = (Raised (FileNotFoundError xyz),
     World (fs w) true (engine w) (stdout w)
           (trace w ++ [EvImport; EvOpenRead xyz])).
Proof.
  intros Hi Hf. run_script. rewrite Hi. simpl. rewrite Hf.
  now rewrite <- app_assoc.
Qed.

Lemma generate_parse_error P xyz (w : world P) content e :
  psi4_importable w = true -> fs w !! xyz = Some content ->
  Xyz.geometry (PyStr.readlines content) = Raised e ->
  generate_esp_psi4 P xyz w
  = (Raised e, World (fs w) true (engine w) (stdout w)
                     (trace w ++ [EvImport; EvOpenRead xyz])).
Proof.
  intros Hi Hf Hg. run_script. rewrite Hi. simpl. rewrite Hf, Hg.
  now rewrite <- app_assoc.
Qed.

(** The run once the four engine calls have returned. *)
Lemma generate_calculated P xyz (w : world P) content g energy s4 f4 :
  psi4_importable w = true -> fs w !! xyz = Some content ->
  Xyz.geometry (PyStr.readlines content) = Val g ->
  calculation P (Xyz.molecule_spec g) (engine w) (fs w) = Returns energy s4 f4 ->
  generate_esp_psi4 P xyz w
  = match f4 !! "ESP.cube" with
    | Some cube =>
        match rename_refusal f4 "ESP.cube" (cube_path xyz) with
        | None =>
            (Val tt,
             World (<[cube_path xyz := cube]> (delete "ESP.cube" f4)) true s4
                   (stdout w ++
                      success_messages (format_6f P energy) xyz (cube_path xyz))
                   (trace w ++ [EvImport; EvOpenRead xyz] ++
                      engine_events (Xyz.molecule_spec g) ++
                      [EvExists "ESP.cube";
                       EvRename "ESP.cube" (cube_path xyz)]))
        | Some msg =>
            (Raised (OSError msg),
             World f4 true s4
                   (stdout w ++ progress_messages (format_6f P energy) xyz)
                   (trace w ++ [EvImport; EvOpenRead xyz] ++
                      engine_events (Xyz.molecule_spec g) ++
                      [EvExists "ESP.cube";
                       EvRenameFailed "ESP.cube" (cube_path xyz)]))
        end
    | None =>
        (Exit 1,
         World f4 true s4
               (stdout w ++ no_cube_messages (format_6f P energy) xyz)
               (trace w ++ [EvImport; EvOpenRead xyz] ++
                  engine_events (Xyz.molecule_spec g) ++
                  [EvExists "ESP.cube"]))
    end.
Proof.
  intros Hi Hf Hg Hc. unfold calculation in Hc.
  destruct (psi4_geometry _ _ _ _) as [|[] s1 f1] eqn:H1; [discriminate|].
  destruct (psi4_set_options _ _ _ _) as [|[] s2 f2] eqn:H2; [discriminate|].
  destruct (psi4_energy _ _ _ _) as [|en s3 f3] eqn:H3; [discriminate|].
  destruct (psi4_cubeprop _ _ _) as [|[] s4' f4'] eqn:H4; [discriminate|].
  injection Hc as -> -> ->.
  run_script. rewrite Hi. simpl. rewrite Hf, Hg. simpl.
  rewrite H1. simpl. rewrite H2. simpl. rewrite H3. simpl. rewrite H4. simpl.
  destruct (f4 !! "ESP.cube") as [cube|] eqn:Hcube.
  - rewrite bool_decide_true by eauto. simpl. rewrite Hcube.
    destruct (rename_refusal f4 "ESP.cube" (cube_path xyz)); simpl;
      unfold success_messages, progress_messages, engine_events; simpl;
      repeat rewrite <- app_assoc; reflexivity.
  - rewrite bool_decide_false by (intros [? ?]; congruence). simpl.
    unfold no_cube_messages, engine_events. simpl.
    repeat rewrite <- app_assoc. reflexivity.
Qed.

(** A failing engine call surfaces as an uncaught exception. *)
Lemma generate_engine_fails P xyz (w : world P) content g msg :
  psi4_importable w = true -> fs w !! xyz = Some content ->
  Xyz.geometry (PyStr.readlines content) = Val g ->
  calculation P (Xyz.molecule_spec g) (engine w) (fs w) = Fails msg ->
  fst (generate_esp_psi4 P xyz w) = Raised (EngineError msg).
Proof.
  intros Hi Hf Hg Hc. unfold calculation in Hc.
  run_script. rewrite Hi. simpl. rewrite Hf, Hg. simpl.
  destruct (psi4_geometry _ _ _ _) as [|[] s1 f1] eqn:H1; simpl;
    [congruence|].
  destruct (psi4_set_options _ _ _ _) as [|[] s2 f2] eqn:H2; simpl;
    [congruence|].
  destruct (psi4_energy _ _ _ _) as [|en s3 f3] eqn:H3; simpl;
    [congruence|].
  destruct (psi4_cubeprop _ _ _) as [|[] s4' f4'] eqn:H4; simpl;
    [congruence|discriminate].
Qed.

(** Whatever the engine answers, a run hands it the specification built
    from the file, and no other. *)
Lemma generate_geometry_specs P xyz (w : world P) :
  geometry_specs (trace (snd (generate_esp_psi4 P xyz w)))
  = geometry_specs (trace w)
    ++ spec_handed_over (psi4_importable w) (fs w !! xyz).
Proof.
  unfold spec_handed_over, geometry_specs. walk; try congruence; trace_done.
Qed.

Lemma strip_all_padded (ls cores : list string) :
  Forall2 padded ls cores -> PyStr.strip <$> ls = cores.
Proof.
  induction 1 as [|l core ls cores Hl _ IH]; [reflexivity|].
  rewrite fmap_cons. now rewrite (strip_padded _ _ Hl), IH.
Qed.

Lemma atom_lines_length (lines : list string) n :
  2 + n <= Z.of_nat (length lines) -> 0 <= n ->
  length (atom_lines lines n) = Z.to_nat n.
Proof.
  intros Hlen Hn. unfold atom_lines. rewrite length_take, length_drop. lia.
Qed.



Ltac not_a_hint Hhint Hin :=
  unfold install_hint in Hhint;
  repeat (apply elem_of_cons in Hhint as [Hhint|Hhint]);
  try (now apply elem_of_nil in Hhint);
  subst;
  repeat (apply elem_of_cons in Hin as [Hin|Hin];
          [cbv [not_found_message usage_text nl String.append PyStr.LF] in Hin;
           try discriminate|]);
  try (now apply elem_of_nil in Hin).

(** The installation hint is printed by a failed import only. *)
Lemma generate_hint P xyz (w : world P) :
  exists msgs,
    stdout (snd (generate_esp_psi4 P xyz w)) = stdout w ++ msgs /\
    forall line, line ∈ install_hint -> line ∈ msgs ->
                 psi4_importable w = false.
Proof.
  destruct (psi4_importable w) eqn:Hi.
  - walk; try congruence.
    all: eexists; split; [stdout_done|]; intros line Hhint Hin.
    all: not_a_hint Hhint Hin.
  - rewrite generate_without_psi4 by assumption.
    exists install_hint. split; [reflexivity|]. reflexivity.
Qed.

Lemma main_hint P argv (w : world P) :
  exists msgs,
    stdout (snd (main P argv w)) = stdout w ++ msgs /\
    forall line, line ∈ install_hint -> line ∈ msgs ->
      exists a0 xyz, argv = [a0; xyz] /\ is_Some (fs w !! xyz) /\
                     psi4_importable w = false.
Proof.
  destruct (input_path argv) as [xyz|] eqn:Hargv.
  - apply input_path_Some in Hargv as [a0 ->].
    rewrite main_one_argument. case_bool_decide as Hfile.
    + destruct (generate_hint P xyz (logged [EvExists xyz] w))
        as (msgs & Hout & Hmsg).
      exists msgs. split; [exact Hout|].
      intros line Hhint Hin. exists a0, xyz.
      split_and!; [reflexivity | exact Hfile | exact (Hmsg line Hhint Hin)].
    + exists [not_found_message xyz]. split; [reflexivity|].
      intros line Hhint Hin. not_a_hint Hhint Hin.
  - apply input_path_None in Hargv.
    rewrite main_wrong_arity by assumption.
    exists [usage_text]. split; [reflexivity|].
    intros line Hhint Hin. not_a_hint Hhint Hin.
Qed.

(** * The claims *)

(** C1, as stated, fails: an atom line that carries white space around
    its text does not reach the geometry block character for character.
    For the file [indented_xyz], which declares one atom and holds its
    line, the block holds the text of the line without the blanks before
    and after it; it equals neither the line as read nor the line without
    its terminator. *)
Lemma C1_verbatim_counterexample :
  let lines := PyStr.readlines indented_xyz in
  Xyz.read_count lines = Val 1 /\
  length lines = 3%nat /\
  atom_lines lines 1 = ["  H 0.0 0.0 0.0 " +:+ nl] /\
  Xyz.geometry_lines lines = Val ["H 0.0 0.0 0.0"] /\
  Xyz.geometry lines = Val "H 0.0 0.0 0.0" /\
  Xyz.geometry_lines lines <> Val (atom_lines lines 1) /\
  Xyz.geometry_lines lines <> Val (chomp <$> atom_lines lines 1).
Proof. vm_compute. repeat split; discriminate. Qed.

(** C1, amended: for a file that declares [n] atoms and holds at least
    [n] lines after the two header lines, the geometry block consists of
    exactly those [n] atom lines, in file order, each with its leading
    and trailing white space (the line terminator included) removed and
    otherwise character for character; [geom_str] is these texts joined
    by newlines. A line without white space around its text is therefore
    carried over as it stands. *)
Theorem C1_geometry_is_stripped_atom_lines (lines : list string) (n : Z) :
  Xyz.read_count lines = Val n ->
  0 <= n ->
  2 + n <= Z.of_nat (length lines) ->
  Xyz.geometry_lines lines = Val (PyStr.strip <$> atom_lines lines n) /\
  Xyz.geometry lines
    = Val (PyStr.join nl (PyStr.strip <$> atom_lines lines n)) /\
  length (atom_lines lines n) = Z.to_nat n /\
  (forall cores, Forall2 padded (atom_lines lines n) cores ->
                 Xyz.geometry_lines lines = Val cores).
Proof.
  intros Hcount Hn Hlen.
  assert (Hgeom : Xyz.geometry_lines lines
                  = Val (PyStr.strip <$> atom_lines lines n))
    by (apply geometry_lines_enough; [assumption | lia | lia]).
  repeat split.
  - exact Hgeom.
  - unfold Xyz.geometry. now rewrite Hgeom.
  - now apply atom_lines_length.
  - intros cores Hcores. rewrite Hgeom. f_equal.
    now apply strip_all_padded.
Qed.

Lemma C1_witness :
  Xyz.geometry (PyStr.readlines water_xyz)
  = Val (PyStr.join nl
           (PyStr.strip <$> atom_lines (PyStr.readlines water_xyz) 3)).
Proof.
  apply (C1_geometry_is_stripped_atom_lines (PyStr.readlines water_xyz) 3).
  - reflexivity.
  - lia.
  - vm_compute. discriminate.
Defined.

Lemma basename_without_dir xyz :
  PyPath.rfind "/" xyz = None -> PyPath.basename xyz = xyz.
Proof.
  intros H. unfold PyPath.basename, PyPath.rfind_index. now rewrite H.
Qed.

(** A run of the whole script on a file that parses, with an engine
    whose four calls return. *)
Lemma main_calculated P a0 xyz (w : world P) content g energy s4 f4 :
  psi4_importable w = true -> fs w !! xyz = Some content ->
  Xyz.geometry (PyStr.readlines content) = Val g ->
  calculation P (Xyz.molecule_spec g) (engine w) (fs w) = Returns energy s4 f4 ->
  main P [a0; xyz] w
  = match f4 !! "ESP.cube" with
    | Some cube =>
        match rename_refusal f4 "ESP.cube" (cube_path xyz) with
        | None =>
            (Val tt,
             World (<[cube_path xyz := cube]> (delete "ESP.cube" f4)) true s4
                   (stdout w ++
                      success_messages (format_6f P energy) xyz (cube_path xyz))
                   (trace w ++ [EvExists xyz; EvImport; EvOpenRead xyz] ++
                      engine_events (Xyz.molecule_spec g) ++
                      [EvExists "ESP.cube";
                       EvRename "ESP.cube" (cube_path xyz)]))
        | Some msg =>
            (Raised (OSError msg),
             World f4 true s4
                   (stdout w ++ progress_messages (format_6f P energy) xyz)
                   (trace w ++ [EvExists xyz; EvImport; EvOpenRead xyz] ++
                      engine_events (Xyz.molecule_spec g) ++
                      [EvExists "ESP.cube";
                       EvRenameFailed "ESP.cube" (cube_path xyz)]))
        end
    | None =>
        (Exit 1,
         World f4 true s4
               (stdout w ++ no_cube_messages (format_6f P energy) xyz)
               (trace w ++ [EvExists xyz; EvImport; EvOpenRead xyz] ++
                  engine_events (Xyz.molecule_spec g) ++
                  [EvExists "ESP.cube"]))
    end.
Proof.
  intros Hi Hf Hg Hc. rewrite main_one_argument.
  rewrite bool_decide_true by eauto.
  rewrite (generate_calculated P xyz (logged [EvExists xyz] w)
             content g energy s4 f4 Hi Hf Hg Hc).
  simpl. rewrite <- !app_assoc. reflexivity.
Qed.

Lemma dir_part_without_dir xyz :
  PyPath.rfind "/" xyz = None -> PyPath.dir_part xyz = "".
Proof.
  intros H. unfold PyPath.dir_part, PyPath.rfind_index. now rewrite H.
Qed.

Lemma working_dir_cube_name_plain xyz :
  PyPath.rfind "/" (working_dir_cube_name xyz) = None.
Proof.
  unfold working_dir_cube_name.
  destruct (splitext_root_facts (PyPath.basename xyz)) as (Hsep & _).
  rewrite rfind_app_absent, Hsep by reflexivity.
  unfold PyPath.basename. rewrite rfind_after_drop.
  unfold PyPath.rfind_index.
  destruct (PyPath.rfind "/" xyz) as [i|]; [|reflexivity].
  destruct (Nat.leb_spec (Z.to_nat (Z.of_nat i + 1)) i); [lia|reflexivity].
Qed.

(** The file [<input_basename>_esp.cube] of the working directory is the
    output file exactly when the input lies in the working directory. *)
Lemma cube_in_working_dir (f : files) xyz :
  same_file f (cube_path xyz) (working_dir_cube_name xyz)
  <-> in_working_dir f xyz.
Proof.
  pose proof (working_dir_cube_name_plain xyz) as Hplain.
  unfold same_file, in_working_dir, resolve.
  rewrite cube_path_dir, cube_path_name.
  rewrite (dir_part_without_dir _ Hplain), (basename_without_dir _ Hplain).
  split; [now intros [= ->] | now intros ->].
Qed.

(** C2, as stated, fails in two ways. For an input path with a
    directory part the cube file is not put into the working directory:
    run on [data/water.xyz] with an engine that leaves [ESP.cube], the
    script succeeds, no file [water_esp.cube] exists in the working
    directory, and the cube file is [data/water_esp.cube], beside the
    input. And the rename can be refused by the operating system: then
    the run ends in [OSError], no cube file of the promised name exists
    and [ESP.cube] is still there. *)
Lemma C2_working_directory_counterexample :
  let w := boot cube_writer {[ "data/water.xyz" := water_xyz ]} true [] in
  let out := main cube_writer ["generate_esp.py"; "data/water.xyz"] w in
  let w2 := boot cube_writer refusing_files true [] in
  let out2 := main cube_writer ["generate_esp.py"; "water.xyz"] w2 in
  (fst out = Val tt /\
   working_dir_cube_name "data/water.xyz" = "water_esp.cube" /\
   fs (snd out) !! "water_esp.cube" = None /\
   fs (snd out) !! "ESP.cube" = None /\
   fs (snd out) !! "data/water_esp.cube" = Some "cube data" /\
   PyPath.dir_part "data/water_esp.cube" = "data/") /\
  (fst out2 = Raised (OSError "Invalid cross-device link") /\
   fs (snd out2) !! "water_esp.cube" = None /\
   fs (snd out2) !! "ESP.cube" = Some "cube data").
Proof. vm_compute. repeat split; reflexivity. Qed.

(** C2, amended: for every input path for which the engine leaves a file
    named [ESP.cube] and the operating system carries the rename out,
    the script produces a cube file named [<input_basename>_esp.cube] in
    the directory of the input file, by renaming [ESP.cube] to the input
    path with its extension replaced by [_esp.cube]. That file is
    [<input_basename>_esp.cube] of the current working directory exactly
    when the input file lies in the working directory, as it does for an
    input path without directory part. After the run the cube file
    exists with the contents the engine wrote and [ESP.cube] no longer
    exists; in particular input [water.xyz] gives [water_esp.cube]. *)
Theorem C2_cube_renamed_beside_input
  P a0 xyz (w : world P) content g energy s4 f4 cube :
  psi4_importable w = true ->
  fs w !! xyz = Some content ->
  Xyz.geometry (PyStr.readlines content) = Val g ->
  calculation P (Xyz.molecule_spec g) (engine w) (fs w)
    = Returns energy s4 f4 ->
  f4 !! "ESP.cube" = Some cube ->
  rename_refusal f4 "ESP.cube" (cube_path xyz) = None ->
  exists w',
    main P [a0; xyz] w = (Val tt, w') /\
    fs w' = <[cube_path xyz := cube]> (delete "ESP.cube" f4) /\
    fs w' !! cube_path xyz = Some cube /\
    fs w' !! "ESP.cube" = None /\
    cube_path xyz = fst (PyPath.splitext xyz) +:+ "_esp.cube" /\
    PyPath.dir_part (cube_path xyz) = PyPath.dir_part xyz /\
    resolve (fs w') (cube_path xyz)
      = (resolve_dir f4 (PyPath.dir_part xyz), working_dir_cube_name xyz) /\
    (same_file (fs w') (cube_path xyz) (working_dir_cube_name xyz)
       <-> in_working_dir f4 xyz) /\
    (in_working_dir f4 xyz ->
       fs w' !! working_dir_cube_name xyz = Some cube) /\
    (PyPath.rfind "/" xyz = None ->
       in_working_dir f4 xyz /\
       PyPath.rfind "/" (cube_path xyz) = None /\
       cube_path xyz = working_dir_cube_name xyz) /\
    (xyz = "water.xyz" ->
       fs w' !! "water_esp.cube" = Some cube /\ fs w' !! "ESP.cube" = None).
Proof.
  intros Hi Hf Hg Hc Hcube Hallowed.
  rewrite (main_calculated P a0 xyz w content g energy s4 f4 Hi Hf Hg Hc).
  rewrite Hcube, Hallowed. eexists. split; [reflexivity|]. cbn [fs].
  assert (Hgone : <[cube_path xyz := cube]> (delete "ESP.cube" f4)
                    !! "ESP.cube" = None).
  { rewrite fs_lookup_insert_ne by apply cube_path_other_than_engine_output.
    apply fs_lookup_delete_eq. }
  split_and!.
  - reflexivity.
  - apply fs_lookup_insert_eq.
  - exact Hgone.
  - reflexivity.
  - apply cube_path_dir.
  - unfold resolve. now rewrite cube_path_dir, cube_path_name.
  - apply (cube_in_working_dir f4).
  - intros Hin. apply fs_lookup_insert_same.
    now apply (cube_in_working_dir f4).
  - intros Hplain. split_and!.
    + unfold in_working_dir. now rewrite dir_part_without_dir.
    + now apply cube_path_no_dir.
    + unfold working_dir_cube_name. now rewrite basename_without_dir.
  - intros ->. split; [|exact Hgone].
    replace (cube_path "water.xyz") with "water_esp.cube" by reflexivity.
    apply fs_lookup_insert_eq.
Qed.

Lemma C2_witness :
  exists w',
    main cube_writer ["generate_esp.py"; "water.xyz"]
         (boot cube_writer water_files true []) = (Val tt, w') /\
    fs w' !! "water_esp.cube" = Some "cube data" /\
    fs w' !! "ESP.cube" = None.
Proof.
  destruct (C2_cube_renamed_beside_input cube_writer
              "generate_esp.py" "water.xyz"
              (boot cube_writer water_files true [])
              water_xyz
              ("O  0.000  0.000  0.117" +:+ nl +:+
               "H  0.000  0.757 -0.471" +:+ nl +:+
               "H  0.000 -0.757 -0.471")
              "-76.026760"
              [CallGeometry (Xyz.molecule_spec
                 ("O  0.000  0.000  0.117" +:+ nl +:+
                  "H  0.000  0.757 -0.471" +:+ nl +:+
                  "H  0.000 -0.757 -0.471"));
               CallSetOptions esp_options; CallEnergy "B3LYP"; CallCubeprop]
              (<["ESP.cube" := "cube data"]> water_files)
              "cube data")
    as (w' & Hrun & _ & Hcube & Hgone & _);
    [reflexivity | reflexivity | reflexivity | reflexivity | reflexivity
    | reflexivity |].
  exists w'. repeat split; assumption.
Defined.

(** The input spelled [./water.xyz]: the path has a directory part, the
    file lies in the working directory all the same, and so does the
    cube file. *)
Example run_on_a_dotted_path :
  let w := boot cube_writer here_water_files true [] in
  let out := main cube_writer ["generate_esp.py"; "./water.xyz"] w in
  PyPath.dir_part "./water.xyz" = "./" /\
  in_working_dir here_water_files "./water.xyz" /\
  fst out = Val tt /\
  fs (snd out) !! "./water_esp.cube" = Some "cube data" /\
  fs (snd out) !! "water_esp.cube" = Some "cube data" /\
  fs (snd out) !! "ESP.cube" = None.
Proof. vm_compute. repeat split; reflexivity. Qed.

(** C3: when the engine's calls return and no [ESP.cube] exists
    afterwards, the script prints the error message and exits with
    status 1; it performs no rename, and the file system is the one the
    engine left. *)
Theorem C3_missing_cube_exits_without_rename
  P a0 xyz (w : world P) content g energy s4 f4 :
  psi4_importable w = true ->
  fs w !! xyz = Some content ->
  Xyz.geometry (PyStr.readlines content) = Val g ->
  calculation P (Xyz.molecule_spec g) (engine w) (fs w)
    = Returns energy s4 f4 ->
  f4 !! "ESP.cube" = None ->
  exists w',
    main P [a0; xyz] w = (Exit 1, w') /\
    fs w' = f4 /\
    stdout w' = stdout w ++ no_cube_messages (format_6f P energy) xyz /\
    trace w' = trace w ++ [EvExists xyz; EvImport; EvOpenRead xyz] ++
                 engine_events (Xyz.molecule_spec g) ++ [EvExists "ESP.cube"] /\
    (forall src dst, EvRename src dst ∈ trace w' ->
                     EvRename src dst ∈ trace w) /\
    fs w' !! cube_path xyz = f4 !! cube_path xyz.
Proof.
  intros Hi Hf Hg Hc Hcube.
  rewrite (main_calculated P a0 xyz w content g energy s4 f4 Hi Hf Hg Hc).
  rewrite Hcube. eexists. split; [reflexivity|]. simpl.
  repeat split.
  intros src dst [Hin|Hin]%elem_of_app; [assumption|].
  unfold engine_events in Hin. simpl in Hin.
  repeat (apply elem_of_cons in Hin as [Hin|Hin]; [discriminate|]).
  now apply elem_of_nil in Hin.
Qed.

Lemma C3_witness :
  exists w',
    main silent_engine ["generate_esp.py"; "water.xyz"]
         (boot silent_engine water_files true tt) = (Exit 1, w') /\
    fs w' = water_files.
Proof.
  destruct (C3_missing_cube_exits_without_rename silent_engine
              "generate_esp.py" "water.xyz"
              (boot silent_engine water_files true tt)
              water_xyz
              ("O  0.000  0.000  0.117" +:+ nl +:+
               "H  0.000  0.757 -0.471" +:+ nl +:+
               "H  0.000 -0.757 -0.471")
              "0.000000" tt water_files)
    as (w' & Hrun & Hfs & _);
    [reflexivity | reflexivity | reflexivity | reflexivity | reflexivity |].
  exists w'. split; assumption.
Defined.



(** The failures the script handles are reported alike: a message on
    standard output, then exit status 1. *)
Lemma wrong_arity_is_reported P argv (w : world P) :
  length argv <> 2%nat -> reports_failure w (main P argv w).
Proof.
  intros Hlen. unfold reports_failure.
  rewrite main_wrong_arity by assumption. simpl.
  split; [reflexivity|]. eexists. split; [|reflexivity]. discriminate.
Qed.

Lemma missing_file_is_reported P a0 xyz (w : world P) :
  fs w !! xyz = None -> reports_failure w (main P [a0; xyz] w).
Proof.
  intros Hf. unfold reports_failure.
  rewrite main_one_argument, bool_decide_false by (intros [? ?]; congruence).
  simpl. split; [reflexivity|]. eexists. split; [|reflexivity]. discriminate.
Qed.

Lemma missing_dependency_is_reported P a0 xyz (w : world P) :
  is_Some (fs w !! xyz) -> psi4_importable w = false ->
  reports_failure w (main P [a0; xyz] w).
Proof.
  intros Hf Hi. unfold reports_failure.
  rewrite main_one_argument, bool_decide_true by assumption.
  rewrite generate_without_psi4 by assumption. simpl.
  split; [reflexivity|]. eexists. split; [|reflexivity]. discriminate.
Qed.

Lemma missing_cube_is_reported
  P a0 xyz (w : world P) content g energy s4 f4 :
  psi4_importable w = true -> fs w !! xyz = Some content ->
  Xyz.geometry (PyStr.readlines content) = Val g ->
  calculation P (Xyz.molecule_spec g) (engine w) (fs w)
    = Returns energy s4 f4 ->
  f4 !! "ESP.cube" = None ->
  reports_failure w (main P [a0; xyz] w).
Proof.
  intros Hi Hf Hg Hc Hcube. unfold reports_failure.
  rewrite (main_calculated P a0 xyz w content g energy s4 f4 Hi Hf Hg Hc).
  rewrite Hcube. simpl.
  split; [reflexivity|]. eexists. split; [|reflexivity]. discriminate.
Qed.

(** C5, as stated, fails: run on [bad.xyz], whose first line is the word
    [three], the script does not print and exit; [int] raises
    [ValueError], nothing catches it, and standard output stays empty. *)
Lemma C5_malformed_counterexample :
  let w := boot cube_writer {[ "bad.xyz" := malformed_xyz ]} true [] in
  let out := main cube_writer ["generate_esp.py"; "bad.xyz"] w in
  fst out = Raised (ValueError "three") /\
  stdout (snd out) = [] /\
  ~ reports_failure w out.
Proof.
  vm_compute. repeat split. intros [Hexit _]. discriminate.
Qed.

(** C5, amended: when the input file exists but does not parse (its
    first line is not an integer atom count, or a line that is read is
    missing), the script handles nothing: the exception raised by the
    parsing block ([ValueError] or [IndexError]) is not caught, the
    script prints no message to standard output and touches no file, and
    the process ends through the uncaught exception (status 1 from the
    interpreter). Only the three other error classes print a message to
    standard output and exit with status 1. *)
Theorem C5_malformed_input_raises P a0 xyz (w : world P) content e :
  psi4_importable w = true ->
  fs w !! xyz = Some content ->
  Xyz.geometry (PyStr.readlines content) = Raised e ->
  main P [a0; xyz] w
    = (Raised e, World (fs w) true (engine w) (stdout w)
                       (trace w ++ [EvExists xyz; EvImport; EvOpenRead xyz])) /\
  process_status (fst (main P [a0; xyz] w)) = 1 /\
  ~ reports_failure w (main P [a0; xyz] w) /\
  (forall l0 rest, PyStr.readlines content = l0 :: rest ->
                   PyStr.int (PyStr.strip l0) = None ->
                   e = ValueError (PyStr.strip l0)) /\
  (PyStr.readlines content = [] -> e = IndexError CountLine).
Proof.
  intros Hi Hf Hg.
  assert (Hrun : main P [a0; xyz] w
                 = (Raised e, World (fs w) true (engine w) (stdout w)
                      (trace w ++ [EvExists xyz; EvImport; EvOpenRead xyz]))).
  { rewrite main_one_argument, bool_decide_true by eauto.
    rewrite (generate_parse_error P xyz (logged [EvExists xyz] w) content e)
      by assumption.
    simpl. now rewrite <- app_assoc. }
  rewrite Hrun. repeat split.
  - intros [Hexit _]. discriminate.
  - intros l0 rest Hlines Hint. rewrite Hlines in Hg.
    unfold Xyz.geometry, Xyz.geometry_lines, Xyz.read_count, Xyz.index in Hg.
    simpl in Hg. rewrite Hint in Hg. congruence.
  - intros Hlines. rewrite Hlines in Hg. vm_compute in Hg. congruence.
Qed.

Lemma C5_witness :
  main cube_writer ["generate_esp.py"; "bad.xyz"]
       (boot cube_writer {[ "bad.xyz" := malformed_xyz ]} true [])
  = (Raised (ValueError "three"),
     @World cube_writer {[ "bad.xyz" := malformed_xyz ]} true [] []
            [EvExists "bad.xyz"; EvImport; EvOpenRead "bad.xyz"]).
Proof.
  destruct (C5_malformed_input_raises cube_writer "generate_esp.py" "bad.xyz"
              (boot cube_writer {[ "bad.xyz" := malformed_xyz ]} true [])
              malformed_xyz (ValueError "three"))
    as [Hrun _]; [reflexivity | reflexivity | reflexivity |].
  exact Hrun.
Defined.

(** C6, as stated, fails: with one argument naming a missing file and
    the dependency missing too, the script prints the file-not-found
    message and exits; the import is never attempted. *)
Lemma C6_check_order_counterexample :
  let w := boot silent_engine ∅ false tt in
  let out := main silent_engine ["generate_esp.py"; "missing.xyz"] w in
  out = (Exit 1,
         @World silent_engine ∅ false tt
                ["Error: File not found: missing.xyz"]
                [EvExists "missing.xyz"]) /\
  stdout (snd out) <> install_hint /\
  EvImport ∉ trace (snd out).
Proof.
  vm_compute. repeat split; [discriminate|].
  intros Hin. apply elem_of_cons in Hin as [Hin|Hin]; [discriminate|].
  now apply elem_of_nil in Hin.
Qed.

(** C6, amended: the script checks that the input file exists before it
    checks that the dependency can be imported. An invocation with one
    argument naming a missing file exits with the file-not-found message
    whether or not the dependency is there, without attempting the
    import; the installation hint is printed only when the file exists
    and the import fails: it is printed then, and whatever the
    arguments, a run that prints a line of the hint had one argument
    naming an existing file and a failed import. *)
Theorem C6_file_check_precedes_import P a0 xyz (w : world P) :
  (fs w !! xyz = None ->
     main P [a0; xyz] w
     = (Exit 1, World (fs w) (psi4_importable w) (engine w)
                      (stdout w ++ [not_found_message xyz])
                      (trace w ++ [EvExists xyz]))) /\
  (is_Some (fs w !! xyz) -> psi4_importable w = false ->
     main P [a0; xyz] w
     = (Exit 1, World (fs w) false (engine w)
                      (stdout w ++ install_hint)
                      (trace w ++ [EvExists xyz; EvImport]))) /\
  (forall argv, exists msgs,
     stdout (snd (main P argv w)) = stdout w ++ msgs /\
     forall line, line ∈ install_hint -> line ∈ msgs ->
       exists a x, argv = [a; x] /\ is_Some (fs w !! x) /\
                   psi4_importable w = false).
Proof.
  split_and!.
  - intros Hf. rewrite main_one_argument, bool_decide_false; [reflexivity|].
    intros [? ?]; congruence.
  - intros Hf Hi. rewrite main_one_argument, bool_decide_true by assumption.
    rewrite generate_without_psi4 by assumption. simpl.
    now rewrite <- app_assoc.
  - intros argv. apply main_hint.
Qed.

Lemma C6_witness :
  main silent_engine ["generate_esp.py"; "missing.xyz"]
       (boot silent_engine ∅ true tt)
  = (Exit 1,
     @World silent_engine ∅ true tt
            ["Error: File not found: missing.xyz"] [EvExists "missing.xyz"])
  /\ main silent_engine ["generate_esp.py"; "water.xyz"]
       (boot silent_engine water_files false tt)
     = (Exit 1,
        @World silent_engine water_files false tt
               install_hint [EvExists "water.xyz"; EvImport]).
Proof.
  split.
  - destruct (C6_file_check_precedes_import silent_engine "generate_esp.py"
                "missing.xyz" (boot silent_engine ∅ true tt)) as [Hmissing _].
    apply Hmissing. reflexivity.
  - destruct (C6_file_check_precedes_import silent_engine "generate_esp.py"
                "water.xyz" (boot silent_engine water_files false tt))
      as (_ & Hhint & _).
    apply Hhint; [vm_compute; eauto | reflexivity].
Defined.

(** C7: when the dependency cannot be imported, the script exits with
    status 1 and has neither opened the input file nor called the
    engine: [generate_esp_psi4] prints the installation hint right after
    the failed import, and a run of the whole script adds at most the
    existence check before it. *)
Theorem C7_import_failure_exits_before_read P argv xyz (w : world P) :
  psi4_importable w = false ->
  generate_esp_psi4 P xyz w
    = (Exit 1, World (fs w) false (engine w) (stdout w ++ install_hint)
                     (trace w ++ [EvImport])) /\
  exists msgs evs,
    main P argv w
      = (Exit 1, World (fs w) (psi4_importable w) (engine w)
                       (stdout w ++ msgs) (trace w ++ evs)) /\
    Forall (fun ev => reads_or_calculates ev = false) evs.
Proof.
  intros Hi. split; [now apply generate_without_psi4|].
  destruct (decide (length argv = 2%nat)) as [Hlen|Hlen].
  - destruct (argv_of_length_two argv Hlen) as (a0 & file & ->).
    rewrite main_one_argument. case_bool_decide as Hf.
    + rewrite generate_without_psi4 by assumption. simpl.
      exists install_hint, [EvExists file; EvImport].
      rewrite <- app_assoc, Hi. split; [reflexivity|].
      repeat constructor.
    + exists [not_found_message file], [EvExists file].
      split; [reflexivity|]. repeat constructor.
  - rewrite main_wrong_arity by assumption.
    exists [usage_text], []. rewrite app_nil_r. split; [reflexivity|].
    constructor.
Qed.

Lemma C7_witness :
  generate_esp_psi4 silent_engine "water.xyz"
    (boot silent_engine water_files false tt)
  = (Exit 1, @World silent_engine water_files false tt install_hint [EvImport]).
Proof.
  destruct (C7_import_failure_exits_before_read silent_engine
              ["generate_esp.py"; "water.xyz"] "water.xyz"
              (boot silent_engine water_files false tt)) as [Hgen _];
    [reflexivity|].
  exact Hgen.
Defined.



(** C9: an invocation with no argument or with more than one (that is,
    [sys.argv] of a length other than two) prints the usage text and
    exits with status 1; it performs no existence check, no read and no
    rename, and leaves the file system as it was. *)
Theorem C9_wrong_arity_prints_usage P argv (w : world P) :
  length argv <> 2%nat ->
  main P argv w
    = (Exit 1, World (fs w) (psi4_importable w) (engine w)
                     (stdout w ++ [usage_text]) (trace w)) /\
  trace (snd (main P argv w)) = trace w /\
  fs (snd (main P argv w)) = fs w.
Proof.
  intros Hlen. rewrite main_wrong_arity by assumption. repeat split.
Qed.

Lemma C9_witness :
  main cube_writer ["generate_esp.py"] (boot cube_writer water_files true [])
    = (Exit 1, @World cube_writer water_files true [] [usage_text] []) /\
  main cube_writer ["generate_esp.py"; "water.xyz"; "extra"]
       (boot cube_writer water_files true [])
    = (Exit 1, @World cube_writer water_files true [] [usage_text] []).
Proof.
  split.
  - destruct (C9_wrong_arity_prints_usage cube_writer ["generate_esp.py"]
                (boot cube_writer water_files true [])) as [Hrun _];
      [simpl; lia | exact Hrun].
  - destruct (C9_wrong_arity_prints_usage cube_writer
                ["generate_esp.py"; "water.xyz"; "extra"]
                (boot cube_writer water_files true [])) as [Hrun _];
      [simpl; lia | exact Hrun].
Defined.

(** A run of [generate_esp_psi4] that returns went all the way: import,
    read, parse, the four engine calls, and the rename. *)
Lemma generate_returns_inv P xyz (w w' : world P) :
  generate_esp_psi4 P xyz w = (Val tt, w') ->
  exists content g energy s4 f4 cube,
    psi4_importable w = true /\
    fs w !! xyz = Some content /\
    Xyz.geometry (PyStr.readlines content) = Val g /\
    calculation P (Xyz.molecule_spec g) (engine w) (fs w)
      = Returns energy s4 f4 /\
    f4 !! "ESP.cube" = Some cube /\
    rename_refusal f4 "ESP.cube" (cube_path xyz) = None /\
    w' = World (<[cube_path xyz := cube]> (delete "ESP.cube" f4)) true s4
               (stdout w ++
                  success_messages (format_6f P energy) xyz (cube_path xyz))
               (trace w ++ [EvImport; EvOpenRead xyz] ++
                  engine_events (Xyz.molecule_spec g) ++
                  [EvExists "ESP.cube"; EvRename "ESP.cube" (cube_path xyz)]).
Proof.
  intros Hrun.
  destruct (psi4_importable w) eqn:Hi;
    [|rewrite generate_without_psi4 in Hrun by assumption; discriminate].
  destruct (fs w !! xyz) as [content|] eqn:Hf;
    [|rewrite generate_file_missing in Hrun by assumption; discriminate].
  destruct (Xyz.geometry (PyStr.readlines content)) as [g|st|e] eqn:Hg.
  - destruct (calculation P (Xyz.molecule_spec g) (engine w) (fs w))
      as [msg|energy s4 f4] eqn:Hc.
    + pose proof (generate_engine_fails P xyz w content g msg Hi Hf Hg Hc)
        as Hfail.
      rewrite Hrun in Hfail. discriminate.
    + rewrite (generate_calculated P xyz w content g energy s4 f4 Hi Hf Hg Hc)
        in Hrun.
      destruct (f4 !! "ESP.cube") as [cube|] eqn:Hcube; [|discriminate].
      destruct (rename_refusal f4 "ESP.cube" (cube_path xyz)) eqn:Hallowed;
        [discriminate|].
      injection Hrun as <-.
      exists content, g, energy, s4, f4, cube. now split_and!.
  - now apply geometry_never_exits in Hg.
  - rewrite (generate_parse_error P xyz w content e Hi Hf Hg) in Hrun.
    discriminate.
Qed.

(** C10: on the success path the script changes the file system by one
    rename of [ESP.cube] to the output path and by nothing else. Its
    accesses are, in order: the existence check of the input, the import,
    one open of the input for reading, the four engine calls, the
    existence check of [ESP.cube], and the rename. Compared with the file
    system the engine left, every file other than [ESP.cube] and the
    file at the output path holds what it held; so the input file stays
    as it was unless it is itself the file [ESP.cube] of the working
    directory (under whatever spelling), in which case the rename moves
    it. The output path holds the cube afterwards whatever was there
    before, and [ESP.cube] is gone; the run prints the six lines of a
    successful calculation and nothing about a file it replaced. *)
Theorem C10_rename_is_the_only_mutation P argv (w w' : world P) :
  main P argv w = (Val tt, w') ->
  exists a0 xyz content g energy s4 f4 cube,
    argv = [a0; xyz] /\
    fs w !! xyz = Some content /\
    Xyz.geometry (PyStr.readlines content) = Val g /\
    calculation P (Xyz.molecule_spec g) (engine w) (fs w)
      = Returns energy s4 f4 /\
    f4 !! "ESP.cube" = Some cube /\
    trace w' = trace w ++ [EvExists xyz; EvImport; EvOpenRead xyz] ++
                 engine_events (Xyz.molecule_spec g) ++
                 [EvExists "ESP.cube"; EvRename "ESP.cube" (cube_path xyz)] /\
    fs w' = <[cube_path xyz := cube]> (delete "ESP.cube" f4) /\
    (forall p, ~ same_file f4 p "ESP.cube" ->
               ~ same_file f4 p (cube_path xyz) ->
               fs w' !! p = f4 !! p) /\
    (~ same_file f4 xyz "ESP.cube" -> fs w' !! xyz = f4 !! xyz) /\
    (same_file f4 xyz "ESP.cube" ->
       fs w' !! xyz = None /\ fs w' !! cube_path xyz = f4 !! xyz) /\
    fs w' !! cube_path xyz = Some cube /\
    fs w' !! "ESP.cube" = None /\
    stdout w'
    = stdout w ++ success_messages (format_6f P energy) xyz (cube_path xyz).
Proof.
  intros Hrun.
  destruct (decide (length argv = 2%nat)) as [Hlen|Hlen];
    [|rewrite main_wrong_arity in Hrun by assumption; discriminate].
  destruct (argv_of_length_two argv Hlen) as (a0 & xyz & ->).
  rewrite main_one_argument in Hrun.
  case_bool_decide as Hexists; [|discriminate].
  apply generate_returns_inv in Hrun
    as (content & g & energy & s4 & f4 & cube & Hi & Hf & Hg & Hc & Hcube
        & Hallowed & ->).
  cbn [fs engine logged trace] in Hf, Hc |- *.
  assert (Hgone : <[cube_path xyz := cube]> (delete "ESP.cube" f4)
                    !! "ESP.cube" = None).
  { rewrite fs_lookup_insert_ne by apply cube_path_other_than_engine_output.
    apply fs_lookup_delete_eq. }
  assert (Hframe : forall p, ~ same_file f4 p "ESP.cube" ->
                             ~ same_file f4 p (cube_path xyz) ->
            <[cube_path xyz := cube]> (delete "ESP.cube" f4) !! p = f4 !! p).
  { intros p Hp1 Hp2.
    rewrite fs_lookup_insert_ne by (intros H; now apply same_file_sym in H).
    rewrite fs_lookup_delete_ne by (intros H; now apply same_file_sym in H).
    reflexivity. }
  exists a0, xyz, content, g, energy, s4, f4, cube.
  split_and!; try assumption; try reflexivity.
  - now rewrite <- !app_assoc.
  - intros Hne. apply Hframe; [assumption|].
    intros H. apply same_file_sym in H.
    now apply cube_path_other_than_input in H.
  - intros Hsame. split.
    + rewrite fs_lookup_insert_ne by apply cube_path_other_than_input.
      apply fs_lookup_delete_same. now apply same_file_sym.
    + rewrite fs_lookup_insert_eq.
      rewrite (fs_lookup_unfold f4 xyz), Hsame. now symmetry.
  - apply fs_lookup_insert_eq.
Qed.

Lemma C10_witness :
  exists a0 xyz cube,
    ["generate_esp.py"; "water.xyz"] = [a0; xyz] /\
    (<["water_esp.cube" := "cube data"]> water_files : files) !! cube_path xyz
      = Some cube.
Proof.
  destruct (C10_rename_is_the_only_mutation cube_writer
              ["generate_esp.py"; "water.xyz"]
              (boot cube_writer water_files true [])
              (@World cube_writer
                 (<["water_esp.cube" := "cube data"]> water_files) true
                 [CallGeometry (Xyz.molecule_spec
                    ("O  0.000  0.000  0.117" +:+ nl +:+
                     "H  0.000  0.757 -0.471" +:+ nl +:+
                     "H  0.000 -0.757 -0.471"));
                  CallSetOptions esp_options; CallEnergy "B3LYP"; CallCubeprop]
                 ["Running DFT calculation on water.xyz...";
                  "This may take a few minutes...";
                  "SCF Energy: -76.026760 Hartree";
                  nl +:+ "ESP cube file created: water_esp.cube";
                  nl +:+ "Now run:";
                  "  ./charge_optimizer water.xyz water_esp.cube"]
                 [EvExists "water.xyz"; EvImport; EvOpenRead "water.xyz";
                  EvEngine (CallGeometry (Xyz.molecule_spec
                    ("O  0.000  0.000  0.117" +:+ nl +:+
                     "H  0.000  0.757 -0.471" +:+ nl +:+
                     "H  0.000 -0.757 -0.471")));
                  EvEngine (CallSetOptions esp_options);
                  EvEngine (CallEnergy "B3LYP"); EvEngine CallCubeprop;
                  EvExists "ESP.cube"; EvRename "ESP.cube" "water_esp.cube"]))
    as (a0 & xyz & content & g & energy & s4 & f4 & cube & Hargv & _ & _ & _
        & _ & _ & _ & _ & _ & _ & Hcube & _);
    [vm_compute; reflexivity|].
  exists a0, xyz, cube. split; [exact Hargv | exact Hcube].
Defined.

(** The input spelled [./ESP.cube] in a working directory that [./]
    reaches: the engine overwrites it, and the rename moves it away. *)
Example run_on_the_engine_output_file :
  let w := boot cube_writer here_files true [] in
  let out := main cube_writer ["generate_esp.py"; "./ESP.cube"] w in
  same_file here_files "./ESP.cube" "ESP.cube" /\
  fst out = Val tt /\
  fs (snd out) !! "./ESP.cube" = None /\
  fs (snd out) !! "ESP.cube" = None /\
  fs (snd out) !! "./ESP_esp.cube" = Some "cube data" /\
  fs (snd out) !! "ESP_esp.cube" = Some "cube data".
Proof. vm_compute. repeat split; reflexivity. Qed.

(** * Further properties of the parsing block *)

Lemma all_space_app a b :
  all_space a = true -> all_space b = true -> all_space (a +:+ b) = true.
Proof.
  intros Ha Hb. induction a as [|c r IH]; [exact Hb|].
  rewrite string_app_cons. simpl in *.
  apply andb_true_iff in Ha as [-> Hr]. now apply IH.
Qed.

(** What [lstrip] removes is white space, and what is left does not
    begin with any. *)
Lemma lstrip_decompose s :
  exists a, all_space a = true /\ s = a +:+ PyStr.lstrip s /\
            match PyStr.lstrip s with
            | EmptyString => True
            | String c _ => PyStr.isspace c = false
            end.
Proof.
  induction s as [|c r (a & Ha & Hs & Hhead)]; simpl.
  - exists "". now split_and!.
  - destruct (PyStr.isspace c) eqn:Hc.
    + exists (String c a). split_and!; [simpl; now rewrite Hc | | exact Hhead].
      rewrite string_app_cons. now f_equal.
    + exists "". now split_and!.
Qed.

(** What [rstrip] removes is white space; what is left is a prefix that
    does not end with any. *)
Lemma rstrip_decompose s :
  exists b, all_space b = true /\ s = PyStr.rstrip s +:+ b /\
            match last_char (PyStr.rstrip s) with
            | Some d => PyStr.isspace d = false
            | None => PyStr.rstrip s = ""
            end.
Proof.
  induction s as [|c r (b & Hb & Hs & Hlast)]; simpl.
  - exists "". now split_and!.
  - destruct (PyStr.isspace c && PyStr.is_empty (PyStr.rstrip r)) eqn:Hcut.
    + apply andb_true_iff in Hcut as [Hc He].
      destruct (PyStr.rstrip r); [|discriminate].
      exists (String c b). split_and!; [simpl; now rewrite Hc | | reflexivity].
      rewrite string_app_nil_l in Hs |- *. now f_equal.
    + exists b. split_and!; [exact Hb | rewrite string_app_cons; now f_equal |].
      destruct (PyStr.rstrip r) as [|y r'] eqn:Hr.
      * simpl. rewrite andb_true_r in Hcut. exact Hcut.
      * change (last_char (String c (String y r')))
          with (last_char (String y r')).
        destruct (last_char_cons y r') as [d Hd]. rewrite Hd in Hlast |- *.
        exact Hlast.
Qed.

(** [strip] yields the text between the surrounding white space. *)
Lemma strip_is_padded s : padded s (PyStr.strip s).
Proof.
  destruct (lstrip_decompose s) as (a & Ha & Hs & Hhead).
  destruct (rstrip_decompose (PyStr.lstrip s)) as (b & Hb & Ht & Hlast).
  exists a, b. unfold PyStr.strip. split_and!; try assumption.
  - unfold trimmed.
    destruct (PyStr.rstrip (PyStr.lstrip s)) as [|c r] eqn:Hcore; [reflexivity|].
    rewrite Ht, string_app_cons in Hhead. rewrite Hhead. simpl negb.
    destruct (last_char (String c r)); [now rewrite Hlast | reflexivity].
  - now rewrite <- Ht.
Qed.

Lemma geometry_lines_Val_inv (lines gl : list string) :
  Xyz.geometry_lines lines = Val gl ->
  exists n, Xyz.read_count lines = Val n /\ (2 <= length lines)%nat /\
            2 + n <= Z.of_nat (length lines) /\
            gl = PyStr.strip <$> atom_lines lines n.
Proof.
  intros Hgl. unfold Xyz.geometry_lines in Hgl.
  destruct (Xyz.read_count lines) as [n| |] eqn:Hn; try discriminate.
  unfold Xyz.read_comment, Xyz.index in Hgl.
  destruct (lines !! 1%nat) as [c|] eqn:Hc; [|discriminate].
  apply lookup_lt_Some in Hc. unfold Xyz.range_length in Hgl.
  destruct (Z_le_gt_dec (2 + n) (Z.of_nat (length lines))) as [Hle|Hgt].
  - rewrite geom_loop_in_range in Hgl by lia. injection Hgl as <-.
    exists n. split_and!; [reflexivity | lia | lia | reflexivity].
  - rewrite geom_loop_out_of_range in Hgl by lia. discriminate.
Qed.

(** X1: the parsing block succeeds exactly when the first line parses as
    an integer [n], the file has its two header lines, and at least [n]
    lines follow them; the block is then the stripped atom lines. In
    every other case it raises. *)
Theorem X1_parse_succeeds_iff (lines gl : list string) :
  Xyz.geometry_lines lines = Val gl <->
  exists n, Xyz.read_count lines = Val n /\ (2 <= length lines)%nat /\
            2 + n <= Z.of_nat (length lines) /\
            gl = PyStr.strip <$> atom_lines lines n.
Proof.
  split; [apply geometry_lines_Val_inv|].
  intros (n & Hn & H2 & Hlen & ->). now apply geometry_lines_enough.
Qed.

Lemma X1_witness :
  exists n, Xyz.read_count (PyStr.readlines water_xyz) = Val n /\
            (2 <= length (PyStr.readlines water_xyz))%nat /\
            2 + n <= Z.of_nat (length (PyStr.readlines water_xyz)) /\
            ["O  0.000  0.000  0.117"; "H  0.000  0.757 -0.471";
             "H  0.000 -0.757 -0.471"]
            = PyStr.strip <$> atom_lines (PyStr.readlines water_xyz) n.
Proof.
  apply (proj1 (X1_parse_succeeds_iff (PyStr.readlines water_xyz)
                  ["O  0.000  0.000  0.117"; "H  0.000  0.757 -0.471";
                   "H  0.000 -0.757 -0.471"])).
  reflexivity.
Defined.

(** X2: when parsing succeeds the block has exactly [max(n, 0)] entries,
    blank atom lines included; each entry is its atom line without the
    white space around it, and no entry begins or ends with white
    space. *)
Theorem X2_block_entries (lines gl : list string) (n : Z) :
  Xyz.geometry_lines lines = Val gl ->
  Xyz.read_count lines = Val n ->
  length gl = Z.to_nat n /\
  Forall2 padded (atom_lines lines n) gl /\
  Forall (fun entry => trimmed entry = true) gl.
Proof.
  intros Hgl Hn.
  destruct (geometry_lines_Val_inv _ _ Hgl) as (m & Hm & H2 & Hlen & ->).
  assert (m = n) as -> by congruence.
  split_and!.
  - rewrite length_fmap. unfold atom_lines.
    rewrite length_take, length_drop. lia.
  - apply Forall2_fmap_r, Forall_Forall2_diag, Forall_forall.
    intros l _. apply strip_is_padded.
  - apply Forall_fmap, Forall_forall. intros l _.
    destruct (strip_is_padded l) as (_ & _ & _ & _ & Ht & _). exact Ht.
Qed.

Lemma X2_witness :
  length ["O  0.000  0.000  0.117"; "H  0.000  0.757 -0.471";
          "H  0.000 -0.757 -0.471"] = Z.to_nat 3.
Proof.
  destruct (X2_block_entries (PyStr.readlines water_xyz)
              ["O  0.000  0.000  0.117"; "H  0.000  0.757 -0.471";
               "H  0.000 -0.757 -0.471"] 3) as [Hlen _];
    [reflexivity | reflexivity |].
  exact Hlen.
Defined.

(** X3: a declared count of zero, or a negative one, is accepted: with
    both header lines present the loop does not run, the geometry block
    is empty, and the engine is handed a molecule specification without
    atoms. *)
Theorem X3_nonpositive_count (lines : list string) (n : Z) :
  Xyz.read_count lines = Val n ->
  n <= 0 ->
  (2 <= length lines)%nat ->
  Xyz.geometry lines = Val "" /\
  forall P xyz (w : world P) content,
    PyStr.readlines content = lines ->
    psi4_importable w = true -> fs w !! xyz = Some content ->
    geometry_specs (trace (snd (generate_esp_psi4 P xyz w)))
    = geometry_specs (trace w) ++ [Xyz.molecule_spec ""].
Proof.
  intros Hn Hle H2.
  assert (Hgeom : Xyz.geometry lines = Val "").
  { unfold Xyz.geometry. rewrite (geometry_lines_enough _ _ Hn) by lia.
    unfold atom_lines. now replace (Z.to_nat n) with 0%nat by lia. }
  split; [exact Hgeom|].
  intros P xyz w content Hlines Hi Hf.
  rewrite generate_geometry_specs. unfold spec_handed_over.
  now rewrite Hi, Hf, Hlines, Hgeom.
Qed.

Lemma X3_witness : Xyz.geometry (PyStr.readlines zero_xyz) = Val "".
Proof.
  destruct (X3_nonpositive_count (PyStr.readlines zero_xyz) 0) as [Hgeom _];
    [reflexivity | lia | vm_compute; lia |].
  exact Hgeom.
Defined.

(** X4: a file of fewer than two lines never parses. An empty file fails
    at the read of the count line; a file of one line fails with
    [ValueError] when that line is not an integer and otherwise at the
    read of the comment line. *)
Theorem X4_short_file (lines : list string) :
  (length lines < 2)%nat ->
  Xyz.geometry lines
  = Raised match lines with
           | [] => IndexError CountLine
           | l0 :: _ =>
               match PyStr.int (PyStr.strip l0) with
               | None => ValueError (PyStr.strip l0)
               | Some _ => IndexError CommentLine
               end
           end.
Proof.
  intros Hlen. destruct lines as [|l0 [|l1 rest]]; simpl in Hlen; try lia.
  - reflexivity.
  - unfold Xyz.geometry, Xyz.geometry_lines, Xyz.read_count, Xyz.index. simpl.
    now destruct (PyStr.int (PyStr.strip l0)).
Qed.

Lemma X4_witness :
  Xyz.geometry (PyStr.readlines one_line_xyz) = Raised (IndexError CommentLine)
  /\ Xyz.geometry (PyStr.readlines "") = Raised (IndexError CountLine).
Proof.
  split.
  - apply (X4_short_file (PyStr.readlines one_line_xyz)). vm_compute. lia.
  - apply (X4_short_file (PyStr.readlines "")). vm_compute. lia.
Defined.

Lemma geom_loop_stripped (lines1 lines2 : list string) :
  PyStr.strip <$> lines1 = PyStr.strip <$> lines2 ->
  forall count i acc,
    Xyz.geom_loop lines1 i count acc = Xyz.geom_loop lines2 i count acc.
Proof.
  intros Heq. induction count as [|k IH]; intros i acc; simpl; [reflexivity|].
  unfold Xyz.index.
  pose proof (f_equal (fun l => l !! i) Heq) as Hi. simpl in Hi.
  rewrite !list_lookup_fmap in Hi.
  destruct (lines1 !! i), (lines2 !! i); simpl in Hi; try discriminate;
    [|reflexivity].
  injection Hi as ->. apply IH.
Qed.

(** X5: the parsing block sees every line through [strip] only. Two
    files whose lines agree once stripped (different indentation,
    trailing blanks, a missing final newline) give the same result, be
    it the geometry block or the exception. *)
Theorem X5_whitespace_insensitive (lines1 lines2 : list string) :
  PyStr.strip <$> lines1 = PyStr.strip <$> lines2 ->
  Xyz.geometry lines1 = Xyz.geometry lines2.
Proof.
  intros Heq.
  unfold Xyz.geometry, Xyz.geometry_lines, Xyz.read_count, Xyz.read_comment,
    Xyz.index.
  pose proof (f_equal (fun l => l !! 0%nat) Heq) as H0.
  pose proof (f_equal (fun l => l !! 1%nat) Heq) as H1.
  simpl in H0, H1. rewrite !list_lookup_fmap in H0, H1.
  destruct (lines1 !! 0%nat) as [a|], (lines2 !! 0%nat) as [b|]; simpl in H0;
    try discriminate; [|reflexivity].
  injection H0 as ->.
  destruct (PyStr.int (PyStr.strip b)); [|reflexivity].
  destruct (lines1 !! 1%nat), (lines2 !! 1%nat); simpl in H1;
    try discriminate; [|reflexivity].
  now rewrite (geom_loop_stripped lines1 lines2 Heq).
Qed.

Lemma X5_witness :
  Xyz.geometry (PyStr.readlines water_xyz_spaced)
  = Xyz.geometry (PyStr.readlines water_xyz).
Proof.
  apply (X5_whitespace_insensitive (PyStr.readlines water_xyz_spaced)
           (PyStr.readlines water_xyz)).
  vm_compute. reflexivity.
Defined.

(** * Further properties of whole runs *)

Lemma generate_renames P xyz (w : world P) :
  renames (trace (snd (generate_esp_psi4 P xyz w)))
  = renames (trace w) ++
      match fst (generate_esp_psi4 P xyz w) with
      | Val _ => [("ESP.cube", cube_path xyz)]
      | _ => []
      end.
Proof.
  unfold renames. walk; try congruence; trace_done.
Qed.

Lemma generate_opens P xyz (w : world P) :
  opens (trace (snd (generate_esp_psi4 P xyz w)))
  = opens (trace w) ++ (if psi4_importable w then [xyz] else []).
Proof.
  unfold opens. walk; try congruence; trace_done.
Qed.

Lemma generate_engine_calls P xyz (w : world P) :
  exists pre,
    engine_calls (trace (snd (generate_esp_psi4 P xyz w)))
      = engine_calls (trace w) ++ pre /\
    (pre = [] \/
     exists content g,
       psi4_importable w = true /\ fs w !! xyz = Some content /\
       Xyz.geometry (PyStr.readlines content) = Val g /\
       pre `prefix_of` calculation_calls (Xyz.molecule_spec g)).
Proof.
  unfold engine_calls. walk; try congruence.
  all: try (exists []; split; [trace_done | now left]).
  all: eexists; split; [trace_done|]; right; do 2 eexists;
    split_and!; try reflexivity; try eassumption.
  all: unfold calculation_calls.
  all: first
    [ now exists [CallSetOptions esp_options; CallEnergy "B3LYP"; CallCubeprop]
    | now exists [CallEnergy "B3LYP"; CallCubeprop]
    | now exists [CallCubeprop]
    | now exists [] ].
Qed.

(** X6: a run renames at most once, and only [ESP.cube] to the output
    path. The rename happens in the runs that return, and in no run that
    exits or raises. *)
Theorem X6_renames P argv (w : world P) :
  renames (trace (snd (main P argv w)))
  = renames (trace w) ++
      match fst (main P argv w), input_path argv with
      | Val _, Some xyz => [("ESP.cube", cube_path xyz)]
      | _, _ => []
      end.
Proof.
  destruct (input_path argv) as [xyz|] eqn:Hargv.
  - apply input_path_Some in Hargv as [a0 ->].
    rewrite main_one_argument. case_bool_decide.
    + rewrite generate_renames. unfold logged, renames. simpl.
      rewrite omap_app, app_nil_r. reflexivity.
    + unfold renames. simpl. now rewrite omap_app.
  - apply input_path_None in Hargv.
    rewrite main_wrong_arity by assumption. simpl. now rewrite app_nil_r.
Qed.

(** X7: a run opens at most one file, the input, once and for reading;
    it does so exactly when there is one argument, the file exists and
    the import succeeds. *)
Theorem X7_opens P argv (w : world P) :
  opens (trace (snd (main P argv w)))
  = opens (trace w) ++
      match input_path argv with
      | Some xyz =>
          if bool_decide (is_Some (fs w !! xyz)) && psi4_importable w
          then [xyz] else []
      | None => []
      end.
Proof.
  destruct (input_path argv) as [xyz|] eqn:Hargv.
  - apply input_path_Some in Hargv as [a0 ->].
    rewrite main_one_argument. case_bool_decide.
    + rewrite generate_opens. unfold logged, opens. simpl.
      rewrite omap_app, app_nil_r. reflexivity.
    + unfold opens. simpl. now rewrite omap_app.
  - apply input_path_None in Hargv.
    rewrite main_wrong_arity by assumption. simpl. now rewrite app_nil_r.
Qed.

(** X8: the engine is called only after every check has passed, and its
    calls follow one fixed order: [geometry] with the specification
    built from the file, [set_options] with the fixed options, [energy]
    with method B3LYP, [cubeprop]. The calls of a run are an initial
    part of that sequence; a later call is made only when the earlier
    ones have returned. *)
Theorem X8_engine_protocol P argv (w : world P) :
  exists pre,
    engine_calls (trace (snd (main P argv w))) = engine_calls (trace w) ++ pre /\
    (pre = [] \/
     exists xyz g, ready argv w xyz g /\
                   pre `prefix_of` calculation_calls (Xyz.molecule_spec g)).
Proof.
  destruct (input_path argv) as [xyz|] eqn:Hargv.
  - apply input_path_Some in Hargv as [a0 ->].
    rewrite main_one_argument. case_bool_decide.
    + destruct (generate_engine_calls P xyz (logged [EvExists xyz] w))
        as (pre & Hpre & Hcases).
      exists pre. split.
      * rewrite Hpre. unfold logged, engine_calls. simpl.
        now rewrite omap_app, app_nil_r.
      * destruct Hcases as [->|(content & g & Hi & Hf & Hg & Hprefix)];
          [now left|].
        right. exists xyz, g. split; [|exact Hprefix].
        unfold ready. split_and!; eauto.
    + exists []. split; [|now left]. unfold engine_calls. simpl.
      now rewrite omap_app.
  - apply input_path_None in Hargv.
    rewrite main_wrong_arity by assumption. exists []. simpl.
    split; [now rewrite app_nil_r | now left].
Qed.

Lemma not_ready_without_file {P} a0 xyz (w : world P) :
  fs w !! xyz = None -> forall x g, ~ ready [a0; xyz] w x g.
Proof.
  intros Hf x g ([a [= _ <-]] & _ & content & Hc & _). congruence.
Qed.

(** X9: unless every check passes (one argument, existing file, engine
    importable, file parses), the run leaves the file system and the
    engine as they were, calls the engine not once, and does not
    return. *)
Theorem X9_untouched_unless_ready P argv (w : world P) :
  (forall xyz g, ~ ready argv w xyz g) ->
  fs (snd (main P argv w)) = fs w /\
  engine (snd (main P argv w)) = engine w /\
  engine_calls (trace (snd (main P argv w))) = engine_calls (trace w) /\
  fst (main P argv w) <> Val tt.
Proof.
  intros Hnot.
  destruct (input_path argv) as [xyz|] eqn:Hargv.
  - apply input_path_Some in Hargv as [a0 ->].
    rewrite main_one_argument. case_bool_decide as Hf.
    + destruct Hf as [content Hf].
      destruct (psi4_importable w) eqn:Hi.
      * destruct (Xyz.geometry (PyStr.readlines content)) as [g|st|e] eqn:Hg.
        -- exfalso. apply (Hnot xyz g). unfold ready. split_and!; eauto.
        -- now apply geometry_never_exits in Hg.
        -- rewrite (generate_parse_error P xyz (logged [EvExists xyz] w)
                      content e Hi Hf Hg).
           unfold engine_calls. simpl. rewrite <- app_assoc, omap_app. simpl.
           rewrite app_nil_r. now split_and!.
      * rewrite generate_without_psi4 by assumption.
        unfold engine_calls. simpl. rewrite <- app_assoc, omap_app. simpl.
        rewrite app_nil_r. now split_and!.
    + unfold engine_calls. simpl. rewrite omap_app. simpl.
      rewrite app_nil_r. now split_and!.
  - apply input_path_None in Hargv.
    rewrite main_wrong_arity by assumption. now split_and!.
Qed.

Lemma X9_witness :
  fs (snd (main cube_writer ["generate_esp.py"; "missing.xyz"]
             (boot cube_writer water_files true []))) = water_files.
Proof.
  destruct (X9_untouched_unless_ready cube_writer
              ["generate_esp.py"; "missing.xyz"]
              (boot cube_writer water_files true [])) as [Hfs _];
    [apply not_ready_without_file; reflexivity|].
  exact Hfs.
Defined.

(** How a call of [generate_esp_psi4] on an existing file can end. *)
Lemma generate_outcome P xyz (w : world P) :
  is_Some (fs w !! xyz) ->
  fst (generate_esp_psi4 P xyz w) = Val tt \/
  fst (generate_esp_psi4 P xyz w) = Exit 1 \/
  (exists content e,
     fs w !! xyz = Some content /\
     Xyz.geometry (PyStr.readlines content) = Raised e /\
     fst (generate_esp_psi4 P xyz w) = Raised e) \/
  (exists msg, fst (generate_esp_psi4 P xyz w) = Raised (EngineError msg)) \/
  (exists msg, fst (generate_esp_psi4 P xyz w) = Raised (OSError msg)).
Proof.
  intros [content Hf]. walk; try congruence; eauto 10.
  exfalso. eapply geometry_never_exits. eassumption.
Qed.

(** How a run can end. *)
Lemma main_outcome P argv (w : world P) :
  fst (main P argv w) = Val tt \/
  fst (main P argv w) = Exit 1 \/
  (exists xyz content e,
     input_path argv = Some xyz /\ fs w !! xyz = Some content /\
     Xyz.geometry (PyStr.readlines content) = Raised e /\
     fst (main P argv w) = Raised e) \/
  (exists msg, fst (main P argv w) = Raised (EngineError msg)) \/
  (exists msg, fst (main P argv w) = Raised (OSError msg)).
Proof.
  destruct (input_path argv) as [xyz|] eqn:Hargv.
  - apply input_path_Some in Hargv as [a0 ->].
    rewrite main_one_argument. case_bool_decide as Hf; [|now right; left].
    destruct (generate_outcome P xyz (logged [EvExists xyz] w) Hf)
      as [H|[H|[(content & e & H1 & H2 & H3)|[H|H]]]];
      [now left | now right; left | | now right; right; right; left
      | now right; right; right; right].
    right. right. left. exists xyz, content, e. now split_and!.
  - apply input_path_None in Hargv.
    rewrite main_wrong_arity by assumption. now right; left.
Qed.

(** X10: the process status of a run is 0 or 1; it is 0 exactly when the
    run returns, and [sys.exit] is never reached with a status other
    than 1. *)
Theorem X10_exit_status P argv (w : world P) :
  (process_status (fst (main P argv w)) = 0 \/
   process_status (fst (main P argv w)) = 1) /\
  (process_status (fst (main P argv w)) = 0 <-> fst (main P argv w) = Val tt) /\
  (forall st, fst (main P argv w) = Exit st -> st = 1).
Proof.
  destruct (main_outcome P argv w)
    as [H|[H|[(xyz & content & e & _ & _ & _ & H)|[[msg H]|[msg H]]]]];
    rewrite H; simpl.
  - split_and!; [now left | easy | discriminate].
  - split_and!; [now right | easy | congruence].
  - split_and!; [now right | easy | discriminate].
  - split_and!; [now right | easy | discriminate].
  - split_and!; [now right | easy | discriminate].
Qed.

Ltac use_preservation Hkeep :=
  destruct Hkeep as (Hk1 & Hk2 & Hk3 & Hk4);
  repeat match goal with
  | H : psi4_geometry _ _ _ _ = Returns _ _ _ |- _ => apply Hk1 in H
  | H : psi4_set_options _ _ _ _ = Returns _ _ _ |- _ => apply Hk2 in H
  | H : psi4_energy _ _ _ _ = Returns _ _ _ |- _ => apply Hk3 in H
  | H : psi4_cubeprop _ _ _ = Returns _ _ _ |- _ => apply Hk4 in H
  end.

(** A rename reaches the two files it names and no other. *)
Lemma rename_keeps_others (f : files) src dst content path :
  ~ same_file f path src -> ~ same_file f path dst ->
  <[dst := content]> (delete src f) !! path = f !! path.
Proof.
  intros Hsrc Hdst.
  rewrite fs_lookup_insert_ne
    by (rewrite same_file_delete; intros H; now apply same_file_sym in H).
  apply fs_lookup_delete_ne. intros H. now apply same_file_sym in H.
Qed.

Lemma generate_frame P xyz (w : world P) path :
  engine_preserves P path ->
  PyPath.basename path <> "ESP.cube" ->
  PyPath.basename path <> PyPath.basename (cube_path xyz) ->
  fs (snd (generate_esp_psi4 P xyz w)) !! path = fs w !! path.
Proof.
  intros Hkeep Hne1 Hne2. walk; try congruence; try reflexivity.
  all: try match goal with
       | H : psi4_cubeprop _ _ _ = Returns _ _ ?f4 |- _ =>
           transitivity (f4 !! path);
           [ exact (rename_keeps_others f4 "ESP.cube" (cube_path xyz) _ path
                      (other_name_other_file f4 path "ESP.cube" Hne1)
                      (other_name_other_file f4 path (cube_path xyz) Hne2))
           | ]
       end.
  all: use_preservation Hkeep.
  all: congruence.
Qed.

Lemma calculation_preserves P spec s f energy s4 f4 path :
  engine_preserves P path ->
  calculation P spec s f = Returns energy s4 f4 ->
  f4 !! path = f !! path.
Proof.
  intros Hkeep Hc. unfold calculation in Hc.
  destruct (psi4_geometry _ _ _ _) as [|[] s1 f1] eqn:H1; [discriminate|].
  destruct (psi4_set_options _ _ _ _) as [|[] s2 f2] eqn:H2; [discriminate|].
  destruct (psi4_energy _ _ _ _) as [|en s3 f3] eqn:H3; [discriminate|].
  destruct (psi4_cubeprop _ _ _) as [|[] s4' f4'] eqn:H4; [discriminate|].
  injection Hc as -> -> ->. use_preservation Hkeep. congruence.
Qed.

(** The sample engines: one writes [ESP.cube] only, one writes nothing. *)
Lemma cube_writer_preserves path :
  PyPath.basename path <> "ESP.cube" -> engine_preserves cube_writer path.
Proof.
  intros Hne. unfold engine_preserves. cbn [cube_writer psi4_geometry
    psi4_set_options psi4_energy psi4_cubeprop psi4_state psi4_float].
  split_and!; intros; simplify_eq; try reflexivity.
  apply fs_lookup_insert_ne. apply other_name_other_file.
  intros Heq. apply Hne. symmetry. exact Heq.
Qed.

Lemma silent_engine_writes_nothing : engine_writes_nothing silent_engine.
Proof.
  intros path. unfold engine_preserves. simpl.
  split_and!; intros; now simplify_eq.
Qed.

(** X12: whatever way a run ends, the script itself changes no file
    other than [ESP.cube] and the file at the output path: a file that
    the engine leaves alone, and whose name is neither [ESP.cube] nor the
    name of the output file, holds after the run what it held before.
    The condition is on the name, the last component of the path, so it
    holds under every spelling of the directory. *)
Theorem X12_frame P argv (w : world P) (path : string) :
  engine_preserves P path ->
  PyPath.basename path <> "ESP.cube" ->
  (forall xyz, input_path argv = Some xyz ->
               PyPath.basename path <> PyPath.basename (cube_path xyz)) ->
  fs (snd (main P argv w)) !! path = fs w !! path.
Proof.
  intros Hkeep Hne1 Hne2.
  destruct (input_path argv) as [xyz|] eqn:Hargv.
  - specialize (Hne2 xyz eq_refl).
    apply input_path_Some in Hargv as [a0 ->].
    rewrite main_one_argument. case_bool_decide; [|reflexivity].
    now rewrite generate_frame.
  - apply input_path_None in Hargv.
    now rewrite main_wrong_arity by assumption.
Qed.

Lemma X12_witness :
  fs (snd (main cube_writer ["generate_esp.py"; "water.xyz"]
             (boot cube_writer lab_files true []))) !! "notes.txt"
  = lab_files !! "notes.txt".
Proof.
  apply (X12_frame cube_writer ["generate_esp.py"; "water.xyz"]
           (boot cube_writer lab_files true []) "notes.txt").
  - apply cube_writer_preserves. vm_compute. discriminate.
  - vm_compute. discriminate.
  - intros xyz [= <-]. vm_compute. discriminate.
Defined.

(** X13: the input file is never written: in every run, if the engine
    leaves the input alone and the input is not itself a file named
    [ESP.cube], it holds after the run what it held before. The rename
    cannot reach it, since the output file has another name than the
    input file. *)
Theorem X13_input_survives P a0 xyz (w : world P) :
  engine_preserves P xyz ->
  PyPath.basename xyz <> "ESP.cube" ->
  fs (snd (main P [a0; xyz] w)) !! xyz = fs w !! xyz.
Proof.
  intros Hkeep Hne.
  rewrite main_one_argument. case_bool_decide; [|reflexivity].
  rewrite generate_frame; [reflexivity | assumption | assumption |].
  intros Heq. symmetry in Heq. revert Heq. apply cube_name_not_input_name.
Qed.

Lemma X13_witness :
  fs (snd (main cube_writer ["generate_esp.py"; "water.xyz"]
             (boot cube_writer water_files true []))) !! "water.xyz"
  = water_files !! "water.xyz".
Proof.
  apply (X13_input_survives cube_writer "generate_esp.py" "water.xyz"
           (boot cube_writer water_files true [])).
  - apply cube_writer_preserves. vm_compute. discriminate.
  - vm_compute. discriminate.
Defined.

(** X14: the script cannot tell a cube file of this calculation from an
    older one. When a file [ESP.cube] exists before the run, the
    engine's calls return without touching it and the operating system
    carries the rename out, the run reports success and the output path
    receives the old file. *)
Theorem X14_stale_cube
  P a0 xyz (w : world P) content g energy s4 f4 old :
  psi4_importable w = true ->
  fs w !! xyz = Some content ->
  Xyz.geometry (PyStr.readlines content) = Val g ->
  calculation P (Xyz.molecule_spec g) (engine w) (fs w)
    = Returns energy s4 f4 ->
  engine_preserves P "ESP.cube" ->
  fs w !! "ESP.cube" = Some old ->
  rename_refusal f4 "ESP.cube" (cube_path xyz) = None ->
  fst (main P [a0; xyz] w) = Val tt /\
  fs (snd (main P [a0; xyz] w)) !! cube_path xyz = Some old /\
  fs (snd (main P [a0; xyz] w)) !! "ESP.cube" = None.
Proof.
  intros Hi Hf Hg Hc Hkeep Hold Hallowed.
  rewrite (main_calculated P a0 xyz w content g energy s4 f4 Hi Hf Hg Hc).
  rewrite (calculation_preserves P _ _ _ _ _ _ _ Hkeep Hc), Hold, Hallowed.
  cbn [fst snd fs].
  split_and!; [reflexivity | apply fs_lookup_insert_eq |].
  rewrite fs_lookup_insert_ne
    by (rewrite same_file_delete; apply cube_path_other_than_engine_output).
  apply fs_lookup_delete_eq.
Qed.

Lemma X14_witness :
  fs (snd (main silent_engine ["generate_esp.py"; "water.xyz"]
             (boot silent_engine stale_files true tt))) !! "water_esp.cube"
  = Some "stale cube".
Proof.
  destruct (X14_stale_cube silent_engine "generate_esp.py" "water.xyz"
              (boot silent_engine stale_files true tt) water_xyz
              ("O  0.000  0.000  0.117" +:+ nl +:+
               "H  0.000  0.757 -0.471" +:+ nl +:+
               "H  0.000 -0.757 -0.471")
              "0.000000" tt stale_files "stale cube")
    as (_ & Hout & _);
    [reflexivity | reflexivity | reflexivity | reflexivity
    | apply silent_engine_writes_nothing | reflexivity | reflexivity |].
  exact Hout.
Defined.


Lemma rfind_app c a b :
  PyPath.rfind c (a +:+ b)
  = match PyPath.rfind c b with
    | Some i => Some (String.length a + i)%nat
    | None => PyPath.rfind c a
    end.
Proof.
  induction a as [|x r IH];
    [rewrite string_app_nil_l; now destruct (PyPath.rfind c b)|].
  rewrite string_app_cons. simpl. rewrite IH.
  now destruct (PyPath.rfind c b).
Qed.

Lemma str_take_app_exact a b : PyPath.take (String.length a) (a +:+ b) = a.
Proof.
  induction a as [|x r IH]; [reflexivity|].
  rewrite string_app_cons. simpl. now rewrite IH.
Qed.

Lemma str_drop_app_exact a b : PyPath.drop (String.length a) (a +:+ b) = b.
Proof.
  induction a as [|x r IH]; [reflexivity|].
  now rewrite string_app_cons.
Qed.

Lemma str_get_app_exact a c r rest :
  String.get (String.length a) (a +:+ String c r +:+ rest) = Some c.
Proof.
  induction a as [|x a IH]; [reflexivity|].
  now rewrite string_app_cons.
Qed.

Lemma string_app_assoc (a b c : string) : (a +:+ b) +:+ c = a +:+ b +:+ c.
Proof.
  induction a as [|x r IH]; [reflexivity|].
  now rewrite !string_app_cons, IH.
Qed.

(** [splitext] on a directory prefix, a name free of dots and an
    extension free of dots. *)
Lemma splitext_plain dir name ext :
  (dir = "" \/ exists d, dir = d +:+ "/") ->
  name <> "" ->
  PyPath.rfind "/" name = None -> PyPath.rfind "." name = None ->
  PyPath.rfind "/" ext = None -> PyPath.rfind "." ext = None ->
  PyPath.splitext (dir +:+ name +:+ "." +:+ ext)
  = (dir +:+ name, "." +:+ ext).
Proof.
  intros Hdir Hname Hns Hnd Hes Hed.
  assert (Hsep : PyPath.rfind_index "/" (dir +:+ name +:+ "." +:+ ext) + 1
                 = Z.of_nat (String.length dir)).
  { unfold PyPath.rfind_index. rewrite !rfind_app. simpl. rewrite Hes, Hns.
    destruct Hdir as [->|[d ->]]; [reflexivity|].
    rewrite rfind_app, string_app_length. simpl. lia. }
  assert (Hdot : PyPath.rfind_index "." (dir +:+ name +:+ "." +:+ ext)
                 = Z.of_nat (String.length dir + String.length name)).
  { unfold PyPath.rfind_index. rewrite !rfind_app. simpl. rewrite Hed.
    simpl. f_equal. lia. }
  unfold PyPath.splitext. rewrite Hdot.
  replace (PyPath.rfind_index "/" (dir +:+ name +:+ "." +:+ ext))
    with (Z.of_nat (String.length dir) - 1) by lia.
  destruct (Z.ltb_spec (Z.of_nat (String.length dir) - 1)
              (Z.of_nat (String.length dir + String.length name)));
    [|lia].
  replace (Z.of_nat (String.length dir) - 1 + 1)
    with (Z.of_nat (String.length dir)) by lia.
  rewrite Nat2Z.id.
  replace (Z.to_nat (Z.of_nat (String.length dir + String.length name)
                     - Z.of_nat (String.length dir)))
    with (String.length name) by lia.
  destruct name as [|c r]; [contradiction|].
  assert (Hc : Ascii.eqb c "." = false).
  { simpl in Hnd. destruct (PyPath.rfind "." r); [discriminate|].
    now destruct (Ascii.eqb c "."). }
  cbn [String.length PyPath.has_non_dot].
  rewrite str_get_app_exact, Hc, Nat2Z.id.
  replace (String.length dir + S (String.length r))%nat
    with (String.length (dir +:+ String c r))
    by (now rewrite string_app_length).
  rewrite <- (string_app_assoc dir (String c r)).
  now rewrite str_take_app_exact, str_drop_app_exact.
Qed.

(** X16: for an input [dir/name.ext] with a plain name and a plain
    extension (neither holds a dot or a slash), the output path is
    [dir/name_esp.cube]. The extension does not enter it: inputs that
    differ in the extension only, such as [water.xyz] and [water.pdb],
    share one output path, and a run on the second replaces the cube
    file of the first. *)
Theorem X16_output_ignores_extension (dir name ext1 ext2 : string) :
  (dir = "" \/ exists d, dir = d +:+ "/") ->
  name <> "" ->
  PyPath.rfind "/" name = None -> PyPath.rfind "." name = None ->
  PyPath.rfind "/" ext1 = None -> PyPath.rfind "." ext1 = None ->
  PyPath.rfind "/" ext2 = None -> PyPath.rfind "." ext2 = None ->
  cube_path (dir +:+ name +:+ "." +:+ ext1) = dir +:+ name +:+ "_esp.cube" /\
  cube_path (dir +:+ name +:+ "." +:+ ext1)
    = cube_path (dir +:+ name +:+ "." +:+ ext2).
Proof.
  intros Hdir Hname Hns Hnd Hes1 Hed1 Hes2 Hed2. unfold cube_path.
  rewrite !splitext_plain by assumption. simpl.
  now rewrite string_app_assoc.
Qed.

Lemma X16_witness :
  cube_path "data/water.xyz" = cube_path "data/water.pdb".
Proof.
  destruct (X16_output_ignores_extension "data/" "water" "xyz" "pdb")
    as [_ Hsame];
    [right; exists "data"; reflexivity | discriminate | reflexivity
    | reflexivity | reflexivity | reflexivity | reflexivity | reflexivity |].
  exact Hsame.
Defined.

Ltac no_created_message H :=
  repeat (apply elem_of_cons in H as [H|H];
          [cbv [created_message nl String.append PyStr.LF] in H;
           try discriminate|]);
  try (now apply elem_of_nil in H).

Lemma generate_created_message P xyz (w : world P) :
  exists msgs,
    stdout (snd (generate_esp_psi4 P xyz w)) = stdout w ++ msgs /\
    forall cube,
      created_message cube ∈ msgs ->
      fst (generate_esp_psi4 P xyz w) = Val tt /\
      cube = cube_path xyz /\
      is_Some (fs (snd (generate_esp_psi4 P xyz w)) !! cube).
Proof.
  walk; try congruence.
  all: eexists; split; [stdout_done|]; intros cube Hin.
  all: no_created_message Hin.
  injection Hin as Hin. subst cube.
  split_and!; [reflexivity | reflexivity |].
  match goal with
  | H : psi4_cubeprop _ _ _ = Returns _ _ ?f4 |- _ =>
      eexists;
      exact (fs_lookup_insert_eq (delete "ESP.cube" f4) (cube_path xyz) _)
  end.
Qed.

(** X17: the success message is truthful. A run only adds lines to
    standard output, and when one of them announces a cube file, the run
    has returned, the announced path is the output path of the input,
    and a file exists there. No run that exits or raises prints the
    announcement. *)
Theorem X17_success_message_is_truthful P argv (w : world P) :
  exists msgs,
    stdout (snd (main P argv w)) = stdout w ++ msgs /\
    forall cube,
      created_message cube ∈ msgs ->
      fst (main P argv w) = Val tt /\
      (exists xyz, input_path argv = Some xyz /\ cube = cube_path xyz) /\
      is_Some (fs (snd (main P argv w)) !! cube).
Proof.
  destruct (input_path argv) as [xyz|] eqn:Hargv.
  - apply input_path_Some in Hargv as [a0 ->].
    rewrite main_one_argument. case_bool_decide.
    + destruct (generate_created_message P xyz (logged [EvExists xyz] w))
        as (msgs & Hout & Hmsg).
      exists msgs. split; [exact Hout|].
      intros cube Hin. destruct (Hmsg cube Hin) as (Hval & Hcube & Hfile).
      split_and!; [exact Hval | exists xyz; now split | exact Hfile].
    + exists [not_found_message xyz]. split; [reflexivity|].
      intros cube Hin. no_created_message Hin.
  - apply input_path_None in Hargv.
    rewrite main_wrong_arity by assumption.
    exists [usage_text]. split; [reflexivity|].
    intros cube Hin. no_created_message Hin.
Qed.
